(** * The Pyomo adapter of nevergrad: a shallow embedding

    Source: [nevergrad/functions/pyomo/core.py].  The adapter reads a Pyomo
    model, derives one nevergrad parameter per free variable entry, and wraps
    the objective and the constraints as callables that first write a
    candidate assignment into the model and then evaluate an expression.

    Pyomo, numpy and nevergrad's parametrization package are libraries the
    file calls into.  Their objects appear here as plain data: a record or an
    inductive type holding exactly the attributes the adapter reads. *)

From Stdlib Require Import ZArith Ascii Floats.SpecFloat.
From stdpp Require Import gmap strings list pretty.

Local Open Scope Z_scope.

(** ** Binary64 numbers

    Python's [float] and numpy's [float64] are IEEE 754 binary64.  The
    Standard Library's [spec_float] at precision 53 is used for them. *)
Abbreviation float := spec_float.

Module Float64.

Definition prec : Z := 53.
Definition emax : Z := 1024.

Definition valid (x : float) : bool := valid_binary prec emax x.

Definition mul : float -> float -> float := SFmul prec emax.
Definition opp : float -> float := SFopp.
Definition ltb : float -> float -> bool := SFltb.
Definition leb : float -> float -> bool := SFleb.

(** The neighbours of a number on the binary64 grid. *)
Definition next_up : float -> float := SFsucc prec emax.
Definition next_down : float -> float := SFpred prec emax.

(** [float(z)] for a Python integer [z]. *)
Definition of_Z (z : Z) : float := binary_normalize prec emax z 0 false.

(** [numpy.nextafter x y], as C's [nextafter]: the next representable
    number after [x] in the direction of [y]; [y] itself when they compare
    equal, NaN when either is NaN. *)
Definition nextafter (x y : float) : float :=
  match SFcompare x y with
  | None => S754_nan
  | Some Eq => y
  | Some Lt => next_up x
  | Some Gt => next_down x
  end.

End Float64.

(** ** Python values and exceptions *)

(** The scalar values that travel between the optimizer and the model. *)
Inductive pyval :=
| VInt (z : Z)
| VFloat (f : float)
| VStr (s : string).

(** Index keys of a variable or constraint container.  [KNone] is the single
    key of a scalar component; a tuple key is a multi-dimensional index (the
    embedding covers tuples of integers). *)
Inductive key :=
| KNone
| KStr (s : string)
| KInt (z : Z)
| KTuple (zs : list Z).

#[global] Instance key_eq_dec : EqDecision key.
Proof. solve_decision. Defined.

(** Every [raise NotImplementedError] of the file, by the place it is at. *)
Inductive raise_site :=
| CannotHandleRangeType        (* line 44 *)
| CannotHandleDomainTypeRange  (* line 49 *)
| VarContainerNotSupported     (* line 60 *)
| FixedVarNotSupported         (* line 64 *)
| CannotHandleDomainTypeVar    (* line 77 *)
| CannotHandleVariableType     (* line 79 *)
| AbstractModelNotSupported    (* line 106 *)
| CannotFindObjective          (* line 129 *)
| MultiObjectiveNotSupported   (* line 132 *)
| ConstraintTypeNotSupported.  (* line 166 *)

Inductive exn :=
| NotImplementedError (site : raise_site)
| AttributeError   (* a name that a module does not have *)
| IndexError
| PyomoError.      (* whatever [pyomo.value] raises *)

Inductive result (A : Type) :=
| Ok (a : A)
| Raise (e : exn).
Arguments Ok {A} a.
Arguments Raise {A} e.

Definition bind {A B} (r : result A) (k : A -> result B) : result B :=
  match r with
  | Ok a => k a
  | Raise e => Raise e
  end.

Notation "x <-- r ;; k" := (bind r (fun x => k))
  (at level 100, r at next level, right associativity).

(** The outcome of a call into [pyomo.value]: a value, or an exception of
    Pyomo's own. *)
Definition value {A} (v : option A) : result A :=
  match v with
  | Some a => Ok a
  | None => Raise PyomoError
  end.

(** The error taxonomy of the specification (section 7), as a
    classification of the raise sites. *)
Inductive error_kind :=
| UnsupportedModelKind
| UnsupportedDomain
| MissingObjective
| MultipleObjectives
| UnsupportedConstraintKind.

Definition classify (s : raise_site) : error_kind :=
  match s with
  | CannotHandleRangeType | CannotHandleDomainTypeRange
  | VarContainerNotSupported | FixedVarNotSupported
  | CannotHandleDomainTypeVar | CannotHandleVariableType => UnsupportedDomain
  | AbstractModelNotSupported => UnsupportedModelKind
  | CannotFindObjective => MissingObjective
  | MultiObjectiveNotSupported => MultipleObjectives
  | ConstraintTypeNotSupported => UnsupportedConstraintKind
  end.

(** ** Pyomo domains *)

(** A range of [domain.ranges()].  [NumericRange] carries the four slots of
    [pyomo.base.range.NumericRange]; an absent endpoint is [None].  Any other
    range class is [OtherRange]; the adapter reads its [step] before it
    looks at the class. *)
Inductive PyRange :=
| NumericRange (start end_ : option float) (step : Z) (closed : bool * bool)
| OtherRange (step : Z).

Definition range_step (r : PyRange) : Z :=
  match r with
  | NumericRange _ _ step _ => step
  | OtherRange step => step
  end.

(** A [pyomo.RangeSet].  [is_finite_simple] says whether the set is of
    Pyomo's class of finite simple range sets, the class line 45 means to
    test for; the translator does not get as far as reading it (see
    below). *)
Record RangeSet := {
  is_finite_simple : bool;
  ranges : list PyRange
}.

(** The domain of a variable entry, by the [isinstance] tests of the
    translator: a [RangeSet], another [pyomo.Set] with the answers of
    [isfinite()], [isordered()], [ordered_data()] and [data()], or anything
    else. *)
Inductive Domain :=
| DRangeSet (d : RangeSet)
| DSet (isfinite isordered : bool) (ordered_data data : list pyval)
| DOther.

(** ** nevergrad parameters *)

(** Modelled from the spec: nevergrad's [p.Scalar] and [p.Choice] are not
    part of the adapter's file.  The spec calls them the "bounded scalar"
    and "categorical choice" primitives; a parameter is the record of the
    arguments the adapter hands to the constructor.  [integer] is set by
    [set_integer_casting()].  The constructors' own checks of their
    arguments (bounds that are out of order or exclude the initial value,
    an empty list of choices) are not part of the record: what is proved
    about a parameter is which arguments the adapter makes it from. *)
Record ScalarParam := {
  lower : option float;
  upper : option float;
  integer : bool
}.

Inductive choice_item :=
| ChoiceValue (v : pyval).

Inductive NgParameter :=
| Scalar (s : ScalarParam)
| Choice (choices : list choice_item).

Definition set_integer_casting (p : NgParameter) : NgParameter :=
  match p with
  | Scalar s => Scalar {| lower := lower s; upper := upper s; integer := true |}
  | Choice c => Choice c
  end.

Abbreviation ParamDict := (gmap string NgParameter).

(** ** The translator *)

(** [str(k)] for a key that is not a string. *)
Fixpoint tuple_items (zs : list Z) : string :=
  match zs with
  | [] => EmptyString
  | [z] => pretty z
  | z :: rest => pretty z +:+ ", " +:+ tuple_items rest
  end.

Definition py_str (k : key) : string :=
  match k with
  | KNone => "None"
  | KStr s => s
  | KInt z => pretty z
  | KTuple [z] => "(" +:+ pretty z +:+ ",)"
  | KTuple zs => "(" +:+ tuple_items zs +:+ ")"
  end.

Definition dquote : string := String (ascii_of_nat 34) EmptyString.

Definition _convert_to_ng_name (pyomo_var_key : key) : string :=
  match pyomo_var_key with
  | KStr s => dquote +:+ s +:+ dquote
  | k => py_str k
  end.

(** The literal [1] and [-1] handed to [np.nextafter]. *)
Definition toward_lower : float := Float64.of_Z 1.
Definition toward_upper : float := Float64.of_Z (-1).

Definition _make_pyomo_range_set_to_parametrization
    (domain : RangeSet) (params : ParamDict) (params_name : string)
    : result ParamDict :=
  (* Line 45 evaluates [pyomo.FiniteSimpleRangeSet] before it calls
     [isinstance]: [pyomo.environ] has no such name, the lookup raises
     [AttributeError], and lines 47 and 49 are not reached. *)
  let other_shapes := Raise AttributeError in
  match ranges domain with
  | [r] =>
      if bool_decide (range_step r ∈ [-1; 0; 1]) then
        match r with
        | NumericRange start end_ step closed =>
            let '(lb, ub) := (start, end_) in
            let '(lb, ub) := if step <? 0 then (ub, lb) else (lb, ub) in
            let lb := match lb with
                      | Some x => if negb closed.1
                                  then Some (Float64.nextafter x toward_lower)
                                  else lb
                      | None => lb
                      end in
            let ub := match ub with
                      | Some x => if negb closed.2
                                  then Some (Float64.nextafter x toward_upper)
                                  else ub
                      | None => ub
                      end in
            let param := Scalar {| lower := lb; upper := ub; integer := false |} in
            let param := if bool_decide (step ∈ [-1; 1])
                         then set_integer_casting param else param in
            Ok (<[params_name := param]> params)
        | OtherRange _ => Raise (NotImplementedError CannotHandleRangeType)
        end
      else other_shapes
  | _ => other_shapes
  end.

(** ** Variables *)

(** The class of a variable container, by the [isinstance] test of line 59. *)
Inductive VarClass := IndexedVar | SimpleVar | OtherVarClass.

(** An entry of [model_component._data]: a [_GeneralVarData] with the answer
    of [is_fixed()] and its [domain], or an object of another class. *)
Inductive VarData :=
| GeneralVarData (is_fixed : bool) (domain : Domain)
| OtherVarData.

(** A [pyomo.Var] component.  [_data] is a Python dict, read in insertion
    order; its keys are pairwise distinct. *)
Record Var := {
  var_name : string;
  var_class : VarClass;
  _data : list (key * VarData)
}.

Definition params_name_of (name : string) (k : key) : string :=
  match k with
  | KNone => name
  | _ => name +:+ "[" +:+ _convert_to_ng_name k +:+ "]"
  end.

(** The body of the loop over [model_component._data.items()]. *)
Definition translate_entry (name : string) (params : ParamDict)
    (kv : key * VarData) : result ParamDict :=
  let '(k, v) := kv in
  match v with
  | GeneralVarData is_fixed domain =>
      if is_fixed then Raise (NotImplementedError FixedVarNotSupported)
      else
        let params_name := params_name_of name k in
        match domain with
        | DRangeSet d =>
            _make_pyomo_range_set_to_parametrization d params params_name
        | DSet isfinite isordered ordered_data data =>
            if isfinite then
              if isordered then
                Ok (<[params_name := Choice (ChoiceValue <$> ordered_data)]> params)
              else
                Ok (<[params_name := Choice (ChoiceValue <$> data)]> params)
            else Raise (NotImplementedError CannotHandleDomainTypeVar)
        | DOther => Raise (NotImplementedError CannotHandleDomainTypeVar)
        end
  | OtherVarData => Raise (NotImplementedError CannotHandleVariableType)
  end.

(** A [for] loop whose body may raise: the first exception ends it. *)
Fixpoint for_each {A S} (body : S -> A -> result S) (xs : list A) (s : S)
    : result S :=
  match xs with
  | [] => Ok s
  | x :: rest => s' <-- body s x ;; for_each body rest s'
  end.

Definition _make_pyomo_variable_to_parametrization
    (model_component : Var) (params : ParamDict) : result ParamDict :=
  match var_class model_component with
  | OtherVarClass => Raise (NotImplementedError VarContainerNotSupported)
  | _ =>
      for_each (translate_entry (var_name model_component))
               (_data model_component) params
  end.

(** ** Models *)

(** The values held by the model's variable entries, keyed by the text the
    adapter writes on the left of its assignment statements: [x] for a scalar
    variable, [x[1]] or [x["a"]] for an entry of an indexed one. *)
Abbreviation store := (gmap string pyval).

(** A [pyomo.Objective]: [sense] is [1] (minimize) or [-1] (maximize);
    [obj_expr] is what [pyomo.value] computes for its expression in a given
    state of the model, [None] when it raises. *)
Record Objective := {
  obj_name : string;
  obj_expr : store -> option float;
  sense : Z
}.

Definition minimize : Z := 1.
Definition maximize : Z := -1.

(** The body of one constraint: what [pyomo.value(c.expr(model))] computes
    in a given state of the model, [None] when it raises. *)
Abbreviation ConstraintData := (store -> option bool).

(** A [pyomo.Constraint] component, by the [isinstance] tests of the
    constraint wrapper. *)
Inductive Constraint :=
| SimpleConstraint (name : string) (expr : ConstraintData)
| IndexedConstraint (name : string) (items : list (key * ConstraintData))
| OtherConstraint (name : string).

Definition con_name (c : Constraint) : string :=
  match c with
  | SimpleConstraint n _ | IndexedConstraint n _ | OtherConstraint n => n
  end.

Inductive Declaration :=
| DeclVar (v : Var)
| DeclParam (name : string)
| DeclConstraint (c : Constraint)
| DeclObjective (o : Objective)
| DeclOther.

Record Component := {
  active : bool;
  decl : Declaration
}.

(** A Pyomo model: [is_concrete] is [isinstance(model, pyomo.ConcreteModel)],
    [components] are its declarations in declaration order. *)
Record Model := {
  is_concrete : bool;
  components : list Component;
  values : store
}.

Definition as_Var (d : Declaration) : option Var :=
  match d with DeclVar v => Some v | _ => None end.
Definition as_Param (d : Declaration) : option string :=
  match d with DeclParam n => Some n | _ => None end.
Definition as_Constraint (d : Declaration) : option Constraint :=
  match d with DeclConstraint c => Some c | _ => None end.
Definition as_Objective (d : Declaration) : option Objective :=
  match d with DeclObjective o => Some o | _ => None end.

(** [model.component_objects(ctype, active=True)]. *)
Definition component_objects {A} (ctype : Declaration -> option A)
    (model : Model) : list A :=
  omap (fun c => if active c then ctype (decl c) else None) (components model).

(** ** The adapter *)

Abbreviation kwargs := (list (string * pyval)).

Record Pyomo := {
  _model_instance : Model;
  all_vars : list Var;
  all_params : list string;
  all_constraints : list Constraint;
  all_objectives : list Objective;
  parametrization : ParamDict;        (* [p.Instrumentation( **instru_params )] *)
  cheap_constraints : list nat;       (* the [c_idx] of each registered checker *)
  function_index : nat;               (* the [0] of the objective partial *)
  exp_tag : string
}.

Definition join (sep : string) (xs : list string) : string :=
  String.concat sep xs.

(** [Pyomo.__init__].  The message printed for a maximization objective is
    output only and is left out, and so are the calls that hand the tag to
    the base class for bookkeeping. *)
Definition __init__ (model : Model) : result Pyomo :=
  if is_concrete model then
    let _model_instance := model in     (* [model.clone()] *)
    let all_vars := component_objects as_Var _model_instance in
    instru_params <--
      for_each (fun ps v => _make_pyomo_variable_to_parametrization v ps)
               all_vars ∅ ;;
    let all_params := component_objects as_Param _model_instance in
    let all_constraints := component_objects as_Constraint _model_instance in
    let all_objectives := component_objects as_Objective _model_instance in
    if bool_decide (all_objectives = []) then
      Raise (NotImplementedError CannotFindObjective)
    else if bool_decide (1 < length all_objectives)%nat then
      Raise (NotImplementedError MultiObjectiveNotSupported)
    else
      Ok {| _model_instance := _model_instance;
            all_vars := all_vars;
            all_params := all_params;
            all_constraints := all_constraints;
            all_objectives := all_objectives;
            parametrization := instru_params;
            cheap_constraints := seq 0 (length all_constraints);
            function_index := 0;
            exp_tag := join "," (obj_name <$> all_objectives)
                       +:+ "|" +:+ join "," (var_name <$> all_vars)
                       +:+ "|" +:+ join "," (con_name <$> all_constraints) |}
  else Raise (NotImplementedError AbstractModelNotSupported).

(** ** Evaluation *)

(** One [exec(f"self._model_instance.{k} = {v}")]: the entry named [k] takes
    the value [v].  The statement is taken for what it is meant to do: the
    text of [v] is assumed to read back as [v] and Pyomo to accept it for
    the entry, so that the assignment is made.  What is proved of a wrapper
    is about the expression it evaluates once the assignments are made. *)
Definition assign (model : Model) (kv : string * pyval) : Model :=
  {| is_concrete := is_concrete model;
     components := components model;
     values := <[kv.1 := kv.2]> (values model) |}.

(** The injection loop both wrappers start with. *)
Definition inject (k_model_variables : kwargs) (model : Model) : Model :=
  foldl assign model k_model_variables.

Definition with_model (self : Pyomo) (model : Model) : Pyomo :=
  {| _model_instance := model;
     all_vars := all_vars self;
     all_params := all_params self;
     all_constraints := all_constraints self;
     all_objectives := all_objectives self;
     parametrization := parametrization self;
     cheap_constraints := cheap_constraints self;
     function_index := function_index self;
     exp_tag := exp_tag self |}.

(** A method that mutates the adapter returns its outcome together with the
    adapter it leaves behind. *)
Definition _pyomo_obj_function_wrapper (self : Pyomo) (i : nat)
    (k_model_variables : kwargs) : result float * Pyomo :=
  let self := with_model self (inject k_model_variables (_model_instance self)) in
  let st := values (_model_instance self) in
  (match all_objectives self !! i with
   | Some o =>
       v <-- value (obj_expr o st) ;;
       Ok (Float64.mul v (Float64.of_Z (sense o)))
   | None => Raise IndexError
   end, self).

(** The loop over the members of an indexed constraint: [ret] is the
    variable of that name, the recursion stops at the [break].  Next to the
    outcome the loop reports the keys of the members whose expression it
    evaluated, in order; [trace] holds those of the earlier iterations. *)
Fixpoint indexed_loop (items : list (key * ConstraintData)) (st : store)
    (ret : bool) (trace : list key) : result bool * list key :=
  match items with
  | [] => (Ok ret, trace)
  | (k, c) :: rest =>
      (* [ret = ret and pyomo.value(c.expr(model))] *)
      let '(r, trace) :=
        if ret then (value (c st), trace ++ [k]) else (Ok ret, trace) in
      match r with
      | Ok ret =>
          if negb ret then (Ok ret, trace)          (* [break] *)
          else indexed_loop rest st ret trace
      | Raise e => (Raise e, trace)
      end
  end.

(** The index [i] is one of [range(0, len(self.all_constraints))], as
    [__init__] registers them; Python's indices from the end of a list
    (negative ones) are not covered. *)
Definition _pyomo_constraint_wrapper (self : Pyomo) (i : nat)
    (instru : list pyval * kwargs) : result bool * Pyomo :=
  let k_model_variables := instru.2 in
  let self := with_model self (inject k_model_variables (_model_instance self)) in
  let st := values (_model_instance self) in
  (match all_constraints self !! i with
   | Some (SimpleConstraint _ expr) => value (expr st)
   | Some (IndexedConstraint _ items) => (indexed_loop items st true []).1
   | Some (OtherConstraint _) =>
       Raise (NotImplementedError ConstraintTypeNotSupported)
   | None => Raise IndexError
   end, self).

(** ** The sample models of the file *)

Module Examples.

Definition f0 : float := Float64.of_Z 0.
Definition f1 : float := Float64.of_Z 1.
Definition f2 : float := Float64.of_Z 2.
Definition f5 : float := Float64.of_Z 5.

(** Pyomo's [Reals]: one continuous range without endpoints. *)
Definition Reals : RangeSet :=
  {| is_finite_simple := false;
     ranges := [NumericRange None None 0 (true, true)] |}.

(** Pyomo's [Binary]: the integers from 0 to 1. *)
Definition Binary : RangeSet :=
  {| is_finite_simple := true;
     ranges := [NumericRange (Some f0) (Some f1) 1 (true, true)] |}.

(** Pyomo's [Integers]: two ranges, from 0 upwards and from 0 downwards. *)
Definition Integers : RangeSet :=
  {| is_finite_simple := false;
     ranges := [NumericRange (Some f0) None 1 (true, true);
                NumericRange (Some f0) None (-1) (true, true)] |}.

Definition to_float (v : pyval) : option float :=
  match v with
  | VInt z => Some (Float64.of_Z z)
  | VFloat f => Some f
  | VStr _ => None
  end.

Definition read (st : store) (k : string) : option float :=
  v ← st !! k; to_float v.

Definition fadd : float -> float -> float := SFadd Float64.prec Float64.emax.
Definition fsub : float -> float -> float := SFsub Float64.prec Float64.emax.

(** [-1.2], the initial value of [rosenbrock.x]. *)
Definition minus_1_2 : float := S754_finite true 5404319552844595 (-52).

(** [rosenbrock]: two real variables, one objective to minimize. *)
Definition scalar_var (name : string) (d : Domain) : Var :=
  {| var_name := name; var_class := SimpleVar;
     _data := [(KNone, GeneralVarData false d)] |}.

Definition rosenbrock_obj : Objective :=
  {| obj_name := "obj";
     obj_expr := fun st =>
       x ← read st "x"; y ← read st "y";
       let a := fsub f1 x in
       let b := fsub y (Float64.mul x x) in
       Some (fadd (Float64.mul a a)
                  (Float64.mul (Float64.of_Z 100) (Float64.mul b b)));
     sense := minimize |}.

Definition rosenbrock : Model :=
  {| is_concrete := true;
     components :=
       [ {| active := true; decl := DeclVar (scalar_var "x" (DRangeSet Reals)) |};
         {| active := true; decl := DeclVar (scalar_var "y" (DRangeSet Reals)) |};
         {| active := true; decl := DeclObjective rosenbrock_obj |} ];
     values := {[ "x" := VFloat minus_1_2; "y" := VFloat f1 ]} |}.

(** [knapsack]: four binary variables indexed by item names, the value of
    the load to maximize, its weight bounded by 14. *)
Definition items : list string := ["hammer"; "wrench"; "screwdriver"; "towel"].
Definition v : list Z := [8; 3; 6; 11].
Definition w : list Z := [5; 7; 4; 3].
Definition W_max : Z := 14.

Definition x_entry (item : string) : string :=
  params_name_of "x" (KStr item).

Fixpoint weighted_sum (coef : list Z) (names : list string) (st : store)
    : option float :=
  match coef, names with
  | c :: coef, n :: names =>
      x ← read st (x_entry n);
      rest ← weighted_sum coef names st;
      Some (fadd (Float64.mul (Float64.of_Z c) x) rest)
  | _, _ => Some f0
  end.

Definition knapsack_x : Var :=
  {| var_name := "x"; var_class := IndexedVar;
     _data := (fun i => (KStr i, GeneralVarData false (DRangeSet Binary))) <$> items |}.

Definition knapsack_value : Objective :=
  {| obj_name := "value";
     obj_expr := weighted_sum v items;
     sense := maximize |}.

Definition knapsack_weight : Constraint :=
  SimpleConstraint "weight"
    (fun st => s ← weighted_sum w items st;
               Some (Float64.leb s (Float64.of_Z W_max))).

Definition knapsack : Model :=
  {| is_concrete := true;
     components :=
       [ {| active := true; decl := DeclVar knapsack_x |};
         {| active := true; decl := DeclObjective knapsack_value |};
         {| active := true; decl := DeclConstraint knapsack_weight |} ];
     values := ∅ |}.

(** An assignment for [knapsack]: hammer, screwdriver and towel. *)
Definition load : kwargs :=
  [ (x_entry "hammer", VInt 1); (x_entry "wrench", VInt 0);
    (x_entry "screwdriver", VInt 1); (x_entry "towel", VInt 1) ].

End Examples.

(** ** Notions used to state the properties *)

(** The parameters the first loop of [__init__] collects. *)
Definition instru_params_of (model : Model) : result ParamDict :=
  for_each (fun ps v => _make_pyomo_variable_to_parametrization v ps)
           (component_objects as_Var model) ∅.

(** The kind of error a call ended with, if it ended with one of the
    adapter's own. *)
Definition raised_kind {A} (r : result A) : option error_kind :=
  match r with
  | Raise (NotImplementedError site) => Some (classify site)
  | _ => None
  end.

(** An error of the Unsupported-Domain kind. *)
Definition domain_error (e : exn) : Prop :=
  exists site, e = NotImplementedError site /\ classify site = UnsupportedDomain.

(** What the variable loop can raise: an error of the Unsupported-Domain
    kind, or the [AttributeError] of line 45. *)
Definition translation_error (e : exn) : Prop :=
  e = AttributeError \/ domain_error e.

(** The parameter a single numeric range with step [-1], [0] or [1] is
    turned into, whatever its endpoints are. *)
Definition scalar_of_range (start end_ : option float) (step : Z)
    (closed : bool * bool) : NgParameter :=
  let lb := if step <? 0 then end_ else start in
  let ub := if step <? 0 then start else end_ in
  Scalar {| lower := if closed.1 then lb
                     else (fun x => Float64.nextafter x toward_lower) <$> lb;
            upper := if closed.2 then ub
                     else (fun x => Float64.nextafter x toward_upper) <$> ub;
            integer := bool_decide (step <> 0) |}.

(** Whether a lower and an upper bound, when both are there, are in order. *)
Definition ordered (lo hi : option float) : bool :=
  match lo, hi with
  | Some l, Some h => Float64.leb l h
  | _, _ => true
  end.

(** A member is satisfied, or violated, in a state of the model. *)
Definition satisfied (st : store) (kc : key * ConstraintData) : Prop :=
  kc.2 st = Some true.
Definition violated (st : store) (kc : key * ConstraintData) : Prop :=
  kc.2 st = Some false.

(** The characters of a string. *)
Definition chars (s : string) : list ascii := String.list_ascii_of_string s.

(** The characters of a decimal numeral. *)
Definition numeral_char (c : ascii) : bool :=
  bool_decide (c ∈ chars "-0123456789").

Definition numeral (l : list ascii) : Prop :=
  Forall (fun c => numeral_char c = true) l.

(** What the rendering of a key starts with tells the kind of the key. *)
Definition leading (l : list ascii) : nat :=
  match l with
  | [] => 0
  | c :: _ =>
      if numeral_char c then 1
      else if bool_decide (c = ascii_of_nat 34) then 2
      else if bool_decide (c = "("%char) then 3
      else 4
  end%nat.

Definition key_kind (k : key) : nat :=
  match k with
  | KInt _ => 1
  | KStr _ => 2
  | KTuple _ => 3
  | KNone => 4
  end%nat.

(** The characters of a tuple's rendering after the opening parenthesis. *)
Definition tuple_body (zs : list Z) : list ascii :=
  match zs with
  | [] => chars ")"
  | [z] => chars (pretty z) ++ chars ",)"
  | _ => chars (tuple_items zs) ++ chars ")"
  end.

(** The sets of ranges the range translator does not refuse: a single
    numeric range with step [-1], [0] or [1]. *)
Definition range_set_supported (d : RangeSet) : bool :=
  match ranges d with
  | [NumericRange _ _ step _] => bool_decide (step ∈ [-1; 0; 1])
  | _ => false
  end.

(** The domains, entries and variables the variable translator does not
    refuse. *)
Definition domain_supported (d : Domain) : bool :=
  match d with
  | DRangeSet d => range_set_supported d
  | DSet isfinite _ _ _ => isfinite
  | DOther => false
  end.

Definition entry_supported (v : VarData) : bool :=
  match v with
  | GeneralVarData is_fixed d => negb is_fixed && domain_supported d
  | OtherVarData => false
  end.

Definition class_supported (c : VarClass) : bool :=
  match c with
  | IndexedVar | SimpleVar => true
  | OtherVarClass => false
  end.

Definition var_supported (mc : Var) : bool :=
  class_supported (var_class mc)
  && forallb (fun kv => entry_supported kv.2) (_data mc).

(** The parameter names of the entries of a variable, and of all active
    variables of a model, in the order the loops meet them. *)
Definition entry_names (mc : Var) : list string :=
  params_name_of (var_name mc) <$> (_data mc).*1.

Definition model_names (model : Model) : list string :=
  mc ← component_objects as_Var model; entry_names mc.

(** A name without an opening bracket, as the names of Pyomo components
    are. *)
Definition bracket_free (name : string) : Prop :=
  "["%char ∉ chars name.

(** The model without its inactive components. *)
Definition without_inactive (model : Model) : Model :=
  {| is_concrete := is_concrete model;
     components := filter (fun c => active c = true) (components model);
     values := values model |}.

Import Examples.

(** The continuous range from 2 (excluded) to 5 (included). *)
Definition open_below_two : RangeSet :=
  {| is_finite_simple := false;
     ranges := [NumericRange (Some f2) (Some f5) 0 (false, true)] |}.

(** ** More sample models *)

Module Samples.

(** [knapsack] with its objective deactivated. *)
Definition no_objective : Model :=
  {| is_concrete := true;
     components :=
       [ {| active := true; decl := DeclVar knapsack_x |};
         {| active := false; decl := DeclObjective knapsack_value |};
         {| active := true; decl := DeclConstraint knapsack_weight |} ];
     values := ∅ |}.

(** [rosenbrock] with its variable [y] fixed. *)
Definition fixed_y : Model :=
  {| is_concrete := true;
     components :=
       [ {| active := true; decl := DeclVar (scalar_var "x" (DRangeSet Reals)) |};
         {| active := true;
            decl := DeclVar {| var_name := "y"; var_class := SimpleVar;
                               _data := [(KNone, GeneralVarData true (DRangeSet Reals))] |} |};
         {| active := true; decl := DeclObjective rosenbrock_obj |} ];
     values := {[ "x" := VFloat minus_1_2; "y" := VFloat f1 ]} |}.

(** [rosenbrock] with a variable [z] over [Integers] declared first and with
    [y] fixed. *)
Definition integers_then_fixed : Model :=
  {| is_concrete := true;
     components :=
       [ {| active := true; decl := DeclVar (scalar_var "z" (DRangeSet Integers)) |};
         {| active := true; decl := DeclVar (scalar_var "x" (DRangeSet Reals)) |};
         {| active := true;
            decl := DeclVar {| var_name := "y"; var_class := SimpleVar;
                               _data := [(KNone, GeneralVarData true (DRangeSet Reals))] |} |};
         {| active := true; decl := DeclObjective rosenbrock_obj |} ];
     values := {[ "x" := VFloat minus_1_2; "y" := VFloat f1 ]} |}.

(** [knapsack] with a further constraint of a class the adapter does not
    know. *)
Definition odd_constraint : Model :=
  {| is_concrete := true;
     components :=
       [ {| active := true; decl := DeclVar knapsack_x |};
         {| active := true; decl := DeclObjective knapsack_value |};
         {| active := true; decl := DeclConstraint knapsack_weight |};
         {| active := true; decl := DeclConstraint (OtherConstraint "odd") |} ];
     values := ∅ |}.

(** What [knapsack_x] is translated into. *)
Definition binary_param : NgParameter :=
  Scalar {| lower := Some f0; upper := Some f1; integer := true |}.

Definition knapsack_params : ParamDict :=
  list_to_map ((fun i => (x_entry i, binary_param)) <$> items).

(** The adapter [Pyomo(knapsack)]. *)
Definition pyomo_knapsack : Pyomo :=
  {| _model_instance := knapsack;
     all_vars := [knapsack_x];
     all_params := [];
     all_constraints := [knapsack_weight];
     all_objectives := [knapsack_value];
     parametrization := knapsack_params;
     cheap_constraints := [0%nat];
     function_index := 0;
     exp_tag := "value|x|weight" |}.

End Samples.

Import Samples.

(** ** A sample with an indexed constraint *)

Module Limits.

(** Three members over the entries of [knapsack.x]: the hammer is taken at
    most once, the wrench at least once, and a third member that reads an
    entry the model does not have, so that its evaluation raises. *)
Definition at_most_once : ConstraintData :=
  fun st => x ← read st (x_entry "hammer"); Some (Float64.leb x f1).
Definition at_least_once : ConstraintData :=
  fun st => x ← read st (x_entry "wrench"); Some (Float64.leb f1 x).
Definition broken : ConstraintData :=
  fun st => x ← read st (x_entry "anvil"); Some (Float64.leb x f1).

Definition limits_items : list (key * ConstraintData) :=
  [(KInt 1, at_most_once); (KInt 2, at_least_once); (KInt 3, broken)].

Definition limits : Constraint := IndexedConstraint "limits" limits_items.

Definition knapsack_limits : Model :=
  {| is_concrete := true;
     components :=
       [ {| active := true; decl := DeclVar knapsack_x |};
         {| active := true; decl := DeclObjective knapsack_value |};
         {| active := true; decl := DeclConstraint knapsack_weight |};
         {| active := true; decl := DeclConstraint limits |} ];
     values := ∅ |}.

Definition pyomo_limits : Pyomo :=
  {| _model_instance := knapsack_limits;
     all_vars := [knapsack_x];
     all_params := [];
     all_constraints := [knapsack_weight; limits];
     all_objectives := [knapsack_value];
     parametrization := knapsack_params;
     cheap_constraints := [0%nat; 1%nat];
     function_index := 0;
     exp_tag := "value|x|weight,limits" |}.

(** The adapter of [odd_constraint]. *)
Definition pyomo_odd : Pyomo :=
  {| _model_instance := odd_constraint;
     all_vars := [knapsack_x];
     all_params := [];
     all_constraints := [knapsack_weight; OtherConstraint "odd"];
     all_objectives := [knapsack_value];
     parametrization := knapsack_params;
     cheap_constraints := [0%nat; 1%nat];
     function_index := 0;
     exp_tag := "value|x|weight,odd" |}.

End Limits.

Import Limits.

(** ** Samples for the further properties *)

Module Further.

(** The adapter [Pyomo(rosenbrock)]. *)
Definition real_param : NgParameter :=
  Scalar {| lower := None; upper := None; integer := false |}.

Definition pyomo_rosenbrock : Pyomo :=
  {| _model_instance := rosenbrock;
     all_vars := [scalar_var "x" (DRangeSet Reals);
                  scalar_var "y" (DRangeSet Reals)];
     all_params := [];
     all_constraints := [];
     all_objectives := [rosenbrock_obj];
     parametrization := <["y" := real_param]> (<["x" := real_param]> ∅);
     cheap_constraints := [];
     function_index := 0;
     exp_tag := "obj|x,y|" |}.

(** The point where [rosenbrock] is least. *)
Definition at_optimum : kwargs := [("x", VFloat f1); ("y", VFloat f1)].

(** The members of [limits] in another order: the one that raises comes
    before the one the load violates. *)
Definition reordered_items : list (key * ConstraintData) :=
  [(KInt 1, at_most_once); (KInt 3, broken); (KInt 2, at_least_once)].

Definition pyomo_reordered : Pyomo :=
  {| _model_instance := knapsack_limits;
     all_vars := [knapsack_x];
     all_params := [];
     all_constraints := [knapsack_weight;
                         IndexedConstraint "limits" reordered_items];
     all_objectives := [knapsack_value];
     parametrization := knapsack_params;
     cheap_constraints := [0%nat; 1%nat];
     function_index := 0;
     exp_tag := "value|x|weight,limits" |}.

End Further.

Import Further.

(** * Properties *)

(** ** Binary64 facts *)

Section Float64Facts.

Lemma digits2_pos_shift52 (m : positive) :
  Z.pos (digits2_pos (Pos.iter xO m 52)) = Z.pos (digits2_pos m) + 52.
Proof. cbn [Pos.iter digits2_pos]. lia. Qed.

(** Multiplying a binary64 number by [1.0] or [-1.0] is exact: the product
    has the mantissa shifted left by 52 bits, and rounding shifts it back
    without loss. *)
Lemma mul_unit (v : float) (neg : bool) :
  Float64.valid v = true ->
  Float64.mul v (S754_finite neg 4503599627370496 (-52))
  = if neg then Float64.opp v else v.
Proof.
  destruct v as [s|s| |s m e]; intros Hv;
    [destruct s, neg; reflexivity | destruct s, neg; reflexivity
    | destruct neg; reflexivity | ].
  unfold Float64.valid, valid_binary, bounded, canonical_mantissa in Hv.
  apply andb_prop in Hv as [Hc Hb].
  apply Z.eqb_eq in Hc.
  unfold Float64.mul, SFmul, Float64.opp, SFopp.
  replace (m * 4503599627370496)%positive with (Pos.iter xO m 52)
    by (cbn [Pos.iter]; lia).
  unfold binary_round_aux, shr_fexp.
  cbn [Zdigits2].
  rewrite digits2_pos_shift52.
  replace (Z.pos (digits2_pos m) + 52 + (e + -52))
    with (Z.pos (digits2_pos m) + e) by lia.
  rewrite Hc.
  replace (e - (e + -52)) with 52 by lia.
  cbn [shr_record_of_loc shr].
  replace (SpecFloat.iter_pos shr_1 52
             {| shr_m := Z.pos (Pos.iter xO m 52); shr_r := false; shr_s := false |})
    with {| shr_m := Z.pos m; shr_r := false; shr_s := false |} by reflexivity.
  cbn [loc_of_shr_record shr_m round_nearest_even Zdigits2].
  replace (e + -52 + 52) with e by lia.
  rewrite Hc, Z.sub_diag. cbn [shr shr_m shr_record_of_loc].
  rewrite Hb. destruct s, neg; reflexivity.
Qed.

Lemma mul_maximize (v : float) :
  Float64.valid v = true ->
  Float64.mul v (Float64.of_Z maximize) = Float64.opp v.
Proof. intros Hv. exact (mul_unit v true Hv). Qed.

Lemma mul_minimize (v : float) :
  Float64.valid v = true ->
  Float64.mul v (Float64.of_Z minimize) = v.
Proof. intros Hv. exact (mul_unit v false Hv). Qed.

End Float64Facts.

(** ** The range translator *)

Section RangeTranslator.

Implicit Types (params : ParamDict) (params_name : string).

Lemma unit_or_zero_step (step : Z) :
  step ∈ [-1; 0; 1] -> step = -1 \/ step = 0 \/ step = 1.
Proof. rewrite !elem_of_cons, elem_of_nil. tauto. Qed.

Lemma single_numeric_range fs start end_ step closed params params_name :
  step ∈ [-1; 0; 1] ->
  _make_pyomo_range_set_to_parametrization
    {| is_finite_simple := fs;
       ranges := [NumericRange start end_ step closed] |} params params_name
  = Ok (<[params_name := scalar_of_range start end_ step closed]> params).
Proof.
  intros Hstep. unfold _make_pyomo_range_set_to_parametrization.
  cbn [ranges range_step]. rewrite bool_decide_eq_true_2 by exact Hstep.
  destruct closed as [c1 c2].
  apply unit_or_zero_step in Hstep as [-> | [-> | ->]];
    destruct start, end_, c1, c2; reflexivity.
Qed.

End RangeTranslator.

Section RangeClaims.

Implicit Types (params : ParamDict) (params_name : string).

(** C1 (the code departs from it).  The lower endpoint 2 of the range (2, 5]
    is open, so the derived lower bound should be the least binary64 number
    above 2.  The translator calls [nextafter] with the target 1, which lies
    below 2: the bound it derives is the greatest binary64 number below 2,
    outside the range. *)
Theorem open_lower_endpoint_two_moves_outward :
  exists lb,
    _make_pyomo_range_set_to_parametrization open_below_two ∅ "x"
    = Ok {[ "x" := Scalar {| lower := Some lb; upper := Some f5;
                             integer := false |} ]}
    /\ lb = Float64.next_down f2
    /\ Float64.ltb lb f2 = true
    /\ Float64.ltb f2 lb = false.
Proof.
  exists (S754_finite false 9007199254740991 (-52)).
  split; [ | split; [ | split ] ]; vm_compute; reflexivity.
Qed.

(** The same at the other end: the open upper endpoint -2 of [-5, -2) is
    moved towards -1, above -2. *)
Lemma open_upper_endpoint_minus_two_moves_outward :
  exists ub,
    _make_pyomo_range_set_to_parametrization
      {| is_finite_simple := false;
         ranges := [NumericRange (Some (Float64.of_Z (-5)))
                                 (Some (Float64.of_Z (-2))) 0 (true, false)] |}
      ∅ "x"
    = Ok {[ "x" := Scalar {| lower := Some (Float64.of_Z (-5)); upper := Some ub;
                             integer := false |} ]}
    /\ Float64.ltb (Float64.of_Z (-2)) ub = true.
Proof.
  exists (S754_finite true 9007199254740991 (-52)).
  split; vm_compute; reflexivity.
Qed.

(** Below the target the nudge goes inward: an open lower endpoint under 1
    is replaced by its upper neighbour. *)
Lemma open_lower_endpoint_below_one fs a b c2 params params_name :
  SFcompare a toward_lower = Some Lt ->
  exists ub,
    _make_pyomo_range_set_to_parametrization
      {| is_finite_simple := fs;
         ranges := [NumericRange (Some a) b 0 (false, c2)] |} params params_name
    = Ok (<[params_name := Scalar {| lower := Some (Float64.next_up a);
                                     upper := ub; integer := false |}]> params).
Proof.
  intros Hlt. rewrite single_numeric_range by (right; left).
  unfold scalar_of_range. change (0 <? 0) with false.
  cbn [fst snd fmap option_fmap option_map]. unfold Float64.nextafter.
  rewrite Hlt. eexists. reflexivity.
Qed.

(** Above the target it goes outward, for every such endpoint: an open
    lower endpoint over 1 is replaced by its lower neighbour. *)
Lemma open_lower_endpoint_above_one fs a b c2 params params_name :
  SFcompare a toward_lower = Some Gt ->
  exists ub,
    _make_pyomo_range_set_to_parametrization
      {| is_finite_simple := fs;
         ranges := [NumericRange (Some a) b 0 (false, c2)] |} params params_name
    = Ok (<[params_name := Scalar {| lower := Some (Float64.next_down a);
                                     upper := ub; integer := false |}]> params).
Proof.
  intros Hgt. rewrite single_numeric_range by (right; left).
  unfold scalar_of_range. change (0 <? 0) with false.
  cbn [fst snd fmap option_fmap option_map]. unfold Float64.nextafter.
  rewrite Hgt. eexists. reflexivity.
Qed.

(** C2, refuted: [rosenbrock] has two variables over [Reals], a range
    without endpoints, and the adapter is built for it. *)
Lemma unbounded_range_is_accepted :
  (exists self, __init__ rosenbrock = Ok self
     /\ parametrization self !! "x"
        = Some (Scalar {| lower := None; upper := None; integer := false |}))
  /\ forall e, __init__ rosenbrock <> Raise e.
Proof.
  assert (H : exists self, __init__ rosenbrock = Ok self
     /\ parametrization self !! "x"
        = Some (Scalar {| lower := None; upper := None; integer := false |})).
  { eexists. split; [reflexivity | vm_compute; reflexivity]. }
  split; [exact H | ].
  destruct H as (self & H & _). intros e. rewrite H. discriminate.
Qed.

(** C2, as the code has it: a single numeric range with step -1, 0 or 1 and
    an absent endpoint is not refused.  The translation ends neither with
    an error of the adapter nor at line 45; the absent endpoint is handed
    to [p.Scalar] as an absent bound, so a parameter that is produced has no
    bound on that side; and for the range without endpoints and with step 0
    the parameter is produced, without bounds. *)
Theorem unbounded_range_is_not_refused
    fs start end_ step closed params params_name :
  step ∈ [-1; 0; 1] ->
  start = None \/ end_ = None ->
  let outcome :=
    _make_pyomo_range_set_to_parametrization
      {| is_finite_simple := fs;
         ranges := [NumericRange start end_ step closed] |} params params_name in
  (forall site, outcome <> Raise (NotImplementedError site))
  /\ outcome <> Raise AttributeError
  /\ (forall params', outcome = Ok params' ->
        exists s,
          params' = <[params_name := Scalar s]> params
          /\ ((if step <? 0 then end_ else start) = None -> lower s = None)
          /\ ((if step <? 0 then start else end_) = None -> upper s = None)
          /\ (lower s = None \/ upper s = None))
  /\ (start = None -> end_ = None -> step = 0 ->
      outcome = Ok (<[params_name := Scalar {| lower := None; upper := None;
                                               integer := false |}]> params)).
Proof.
  intros Hstep Hnone outcome. subst outcome.
  rewrite single_numeric_range by exact Hstep.
  split; [discriminate | split; [discriminate | split ] ].
  - intros params' [= <-]. unfold scalar_of_range. eexists.
    split; [reflexivity | ].
    cbn [lower upper]. destruct closed as [c1 c2]. cbn [fst snd].
    assert (Hl : (if step <? 0 then end_ else start) = None ->
                 (if c1 then if step <? 0 then end_ else start
                  else (fun x => Float64.nextafter x toward_lower)
                         <$> (if step <? 0 then end_ else start)) = None).
    { intros ->. destruct c1; reflexivity. }
    assert (Hu : (if step <? 0 then start else end_) = None ->
                 (if c2 then if step <? 0 then start else end_
                  else (fun x => Float64.nextafter x toward_upper)
                         <$> (if step <? 0 then start else end_)) = None).
    { intros ->. destruct c2; reflexivity. }
    split; [exact Hl | split; [exact Hu | ]].
    destruct (step <? 0), Hnone as [-> | ->]; auto.
  - intros -> -> ->. destruct closed as [[] []]; reflexivity.
Qed.

(** On [Reals], the range without endpoints. *)
Lemma unbounded_range_is_not_refused_witness :
  _make_pyomo_range_set_to_parametrization Reals ∅ "x"
  = Ok (<["x" := Scalar {| lower := None; upper := None; integer := false |}]> ∅).
Proof.
  refine (proj2 (proj2 (proj2 (unbounded_range_is_not_refused
                                 false None None 0 (true, true) ∅ "x" _ _)))
            eq_refl eq_refl eq_refl).
  - right. left.
  - left. reflexivity.
Defined.

End RangeClaims.

Section ClosedRanges.

Implicit Types (params : ParamDict) (params_name : string).

(** C6.  A single numeric range with both endpoints present and closed and
    with step -1, 0 or 1 gives a scalar parameter whose bounds are the two
    endpoints themselves, the lower one first ([start] for a step of 0 or 1,
    [end] for a step of -1, where the range runs downwards); the parameter
    is integer-valued exactly when the step is 1 or -1. *)
Theorem closed_range_keeps_endpoints fs s e step params params_name :
  step ∈ [-1; 0; 1] ->
  _make_pyomo_range_set_to_parametrization
    {| is_finite_simple := fs;
       ranges := [NumericRange (Some s) (Some e) step (true, true)] |}
    params params_name
  = Ok (<[params_name :=
            Scalar {| lower := Some (if step <? 0 then e else s);
                      upper := Some (if step <? 0 then s else e);
                      integer := bool_decide (step ∈ [-1; 1]) |}]> params).
Proof.
  intros Hstep. rewrite single_numeric_range by exact Hstep.
  unfold scalar_of_range. cbn [fst snd].
  apply unit_or_zero_step in Hstep as [-> | [-> | ->]]; reflexivity.
Qed.

(** On [Binary], the integers from 0 to 1. *)
Lemma closed_range_keeps_endpoints_witness :
  _make_pyomo_range_set_to_parametrization Binary ∅ "b"
  = Ok (<["b" := Scalar {| lower := Some (if 1 <? 0 then f1 else f0);
                           upper := Some (if 1 <? 0 then f0 else f1);
                           integer := bool_decide (1 ∈ [-1; 1]) |}]> ∅).
Proof.
  apply (closed_range_keeps_endpoints true f0 f1 1 ∅ "b").
  do 2 constructor. constructor.
Defined.

(** C10.  For a numeric range with step -1 (a discrete range; Pyomo makes
    those closed) the endpoints are exchanged before the parameter is built:
    its lower bound is the range's [end], its upper bound the range's
    [start], absent when that endpoint is absent.  The outcome is the one of
    the mirrored range with step 1, integer flag included, and the bounds
    are in order whenever [end <= start]. *)
Theorem negative_step_exchanges_endpoints fs start end_ params params_name :
  let translate r :=
    _make_pyomo_range_set_to_parametrization
      {| is_finite_simple := fs; ranges := [r] |} params params_name in
  let s := {| lower := end_; upper := start; integer := true |} in
  translate (NumericRange start end_ (-1) (true, true))
  = Ok (<[params_name := Scalar s]> params)
  /\ translate (NumericRange start end_ (-1) (true, true))
     = translate (NumericRange end_ start 1 (true, true))
  /\ (ordered end_ start = true -> ordered (lower s) (upper s) = true).
Proof.
  intros translate s. unfold translate.
  rewrite !single_numeric_range by (repeat constructor).
  split; [reflexivity | split; [reflexivity | ]].
  intros Hord. exact Hord.
Qed.

(** On the range from 5 down to 0. *)
Lemma negative_step_exchanges_endpoints_witness :
  ordered (lower {| lower := Some f0; upper := Some f5; integer := true |})
          (upper {| lower := Some f0; upper := Some f5; integer := true |})
  = true.
Proof.
  apply (negative_step_exchanges_endpoints false (Some f5) (Some f0) ∅ "k").
  vm_compute. reflexivity.
Defined.

End ClosedRanges.

(** ** Construction *)

Section Construction.

Implicit Types (model : Model) (self : Pyomo).

Lemma init_abstract model :
  is_concrete model = false ->
  __init__ model = Raise (NotImplementedError AbstractModelNotSupported).
Proof. intros H. unfold __init__. rewrite H. reflexivity. Qed.

Lemma init_variables_fail model e :
  is_concrete model = true ->
  instru_params_of model = Raise e ->
  __init__ model = Raise e.
Proof.
  intros Hc Hv. unfold __init__, instru_params_of in *.
  rewrite Hc, Hv. reflexivity.
Qed.

(** What [__init__] does once the variables are translated. *)
Lemma init_after_variables model ps :
  is_concrete model = true ->
  instru_params_of model = Ok ps ->
  __init__ model =
    match component_objects as_Objective model with
    | [] => Raise (NotImplementedError CannotFindObjective)
    | [o] =>
        Ok {| _model_instance := model;
              all_vars := component_objects as_Var model;
              all_params := component_objects as_Param model;
              all_constraints := component_objects as_Constraint model;
              all_objectives := [o];
              parametrization := ps;
              cheap_constraints :=
                seq 0 (length (component_objects as_Constraint model));
              function_index := 0;
              exp_tag :=
                join "," (obj_name <$> [o])
                +:+ "|" +:+ join "," (var_name <$> component_objects as_Var model)
                +:+ "|" +:+ join "," (con_name <$> component_objects as_Constraint model) |}
    | _ :: _ :: _ => Raise (NotImplementedError MultiObjectiveNotSupported)
    end.
Proof.
  intros Hc Hv. unfold __init__, instru_params_of in *.
  rewrite Hc, Hv. cbn [bind].
  destruct (component_objects as_Objective model) as [|o [|o' objs]].
  - reflexivity.
  - rewrite bool_decide_eq_false_2 by discriminate.
    rewrite bool_decide_eq_false_2 by (cbn; lia). reflexivity.
  - rewrite bool_decide_eq_false_2 by discriminate.
    rewrite bool_decide_eq_true_2 by (cbn; lia). reflexivity.
Qed.

(** An adapter that was built comes from a concrete model whose variables
    were all translated and which has exactly one active objective. *)
Lemma init_ok_inv model self :
  __init__ model = Ok self ->
  is_concrete model = true
  /\ instru_params_of model = Ok (parametrization self)
  /\ (exists o, component_objects as_Objective model = [o]
                /\ all_objectives self = [o])
  /\ all_constraints self = component_objects as_Constraint model
  /\ _model_instance self = model
  /\ function_index self = 0%nat.
Proof.
  intros Hinit.
  destruct (is_concrete model) eqn:Hc;
    [ | rewrite init_abstract in Hinit by exact Hc; discriminate ].
  destruct (instru_params_of model) as [ps|e] eqn:Hv;
    [ | rewrite (init_variables_fail model e Hc Hv) in Hinit; discriminate ].
  rewrite (init_after_variables model ps Hc Hv) in Hinit.
  destruct (component_objects as_Objective model) as [|o [|o' objs]];
    try discriminate.
  injection Hinit as <-. cbn. eauto 10.
Qed.

End Construction.

(** ** Loops that may raise *)

Section ForEach.

Context {A S : Type} (body : S -> A -> result S).

Lemma for_each_app xs ys s :
  for_each body (xs ++ ys) s
  = (s' <-- for_each body xs s ;; for_each body ys s').
Proof.
  revert s. induction xs as [|x xs IH]; intros s; cbn [for_each app bind].
  - reflexivity.
  - destruct (body s x) as [s1|e]; cbn [bind]; [apply IH | reflexivity].
Qed.

(** An exception of the loop is the exception of one of its iterations. *)
Lemma for_each_raise xs s e :
  for_each body xs s = Raise e ->
  exists x s0, x ∈ xs /\ body s0 x = Raise e.
Proof.
  revert s. induction xs as [|x xs IH]; intros s; cbn [for_each].
  - discriminate.
  - destruct (body s x) as [s1|e1] eqn:Hx; cbn [bind].
    + intros H. destruct (IH _ H) as (y & s0 & Hy & Hb).
      exists y, s0. split; [right; exact Hy | exact Hb].
    + intros [= ->]. exists x, s. split; [left | exact Hx].
Qed.

(** A loop that ends normally went through every iteration normally. *)
Lemma for_each_ok xs s s' x :
  for_each body xs s = Ok s' -> x ∈ xs ->
  exists s0 s1, body s0 x = Ok s1.
Proof.
  revert s. induction xs as [|y xs IH]; intros s; cbn [for_each].
  - intros _ Hin. inversion Hin.
  - destruct (body s y) as [s1|e1] eqn:Hy; cbn [bind]; [ | discriminate ].
    intros H Hin. apply elem_of_cons in Hin as [-> | Hin].
    + exists s, s1. exact Hy.
    + exact (IH _ H Hin).
Qed.

End ForEach.

(** ** Errors of the variable translation *)

Section TranslationErrors.

Implicit Types (params : ParamDict) (mc : Var).

Lemma range_set_error d params name e :
  _make_pyomo_range_set_to_parametrization d params name = Raise e ->
  translation_error e.
Proof.
  unfold _make_pyomo_range_set_to_parametrization, translation_error.
  intros H.
  assert (Hother : @Raise ParamDict AttributeError = Raise e ->
                   e = AttributeError \/ domain_error e).
  { intros [= <-]. left. reflexivity. }
  destruct (ranges d) as [|r [|r' rs]]; try exact (Hother H).
  destruct (bool_decide (range_step r ∈ [-1; 0; 1])); [ | exact (Hother H) ].
  destruct r as [start end_ step [c1 c2] | step].
  - destruct (step <? 0), start, end_, c1, c2; discriminate.
  - injection H as <-. right. eexists. split; reflexivity.
Qed.

Lemma translate_entry_error name params kv e :
  translate_entry name params kv = Raise e -> translation_error e.
Proof.
  destruct kv as [k [is_fixed [d | isfinite isordered od dt | ] | ]];
    cbn [translate_entry].
  - destruct is_fixed.
    + intros [= <-]. right. eexists. split; reflexivity.
    + apply range_set_error.
  - destruct is_fixed, isfinite, isordered; try discriminate;
      intros [= <-]; right; eexists; split; reflexivity.
  - destruct is_fixed; intros [= <-]; right; eexists; split; reflexivity.
  - intros [= <-]. right. eexists. split; reflexivity.
Qed.

Lemma variable_error mc params e :
  _make_pyomo_variable_to_parametrization mc params = Raise e ->
  translation_error e.
Proof.
  unfold _make_pyomo_variable_to_parametrization.
  assert (Hloop : for_each (translate_entry (var_name mc)) (_data mc) params
                  = Raise e -> translation_error e).
  { intros H. apply for_each_raise in H as (kv & ps & _ & H).
    exact (translate_entry_error _ _ _ _ H). }
  destruct (var_class mc); try exact Hloop.
  intros [= <-]. right. eexists. split; reflexivity.
Qed.

(** What the adapter's own code raises in the first loop of [__init__] is an
    Unsupported-Domain error or the [AttributeError] of line 45.  (The
    checks inside [p.Scalar] and [p.Choice] are not part of the model.) *)
Lemma instru_params_error model e :
  instru_params_of model = Raise e -> translation_error e.
Proof.
  unfold instru_params_of. intros H.
  apply for_each_raise in H as (v & ps & _ & H).
  exact (variable_error _ _ _ H).
Qed.

(** A fixed entry stops the translation of its variable. *)
Lemma fixed_entry_raises name params k d :
  translate_entry name params (k, GeneralVarData true d)
  = Raise (NotImplementedError FixedVarNotSupported).
Proof. reflexivity. Qed.

Lemma unsupported_variable_raises mc params :
  var_class mc = OtherVarClass
  \/ (exists k d, (k, GeneralVarData true d) ∈ _data mc) ->
  exists e, _make_pyomo_variable_to_parametrization mc params = Raise e.
Proof.
  intros Hbad.
  destruct (_make_pyomo_variable_to_parametrization mc params) as [ps|e] eqn:H;
    [ | eexists; reflexivity ].
  exfalso. unfold _make_pyomo_variable_to_parametrization in H.
  destruct Hbad as [Hc | (k & d & Hin)].
  - rewrite Hc in H. discriminate.
  - assert (Hloop : for_each (translate_entry (var_name mc)) (_data mc) params
                    = Ok ps) by (destruct (var_class mc); [exact H .. | discriminate]).
    destruct (for_each_ok _ _ _ _ _ Hloop Hin) as (s0 & s1 & Hok).
    rewrite fixed_entry_raises in Hok. discriminate.
Qed.

End TranslationErrors.

Section SampleFacts.

Lemma knapsack_variables : instru_params_of knapsack = Ok knapsack_params.
Proof. vm_compute. reflexivity. Qed.

Lemma no_objective_variables : instru_params_of no_objective = Ok knapsack_params.
Proof. vm_compute. reflexivity. Qed.

Lemma odd_constraint_variables :
  instru_params_of odd_constraint = Ok knapsack_params.
Proof. vm_compute. reflexivity. Qed.

Lemma init_knapsack : __init__ knapsack = Ok pyomo_knapsack.
Proof.
  rewrite (init_after_variables knapsack knapsack_params eq_refl knapsack_variables).
  reflexivity.
Qed.

End SampleFacts.

(** ** Claims about construction *)

Section ConstructionClaims.

Implicit Types (model : Model) (self : Pyomo).

(** A fixed entry or an unknown container keeps the adapter from being
    built, whichever variable is the first to raise. *)
Lemma unsupported_variable_never_builds model mc :
  is_concrete model = true ->
  mc ∈ component_objects as_Var model ->
  var_class mc = OtherVarClass
  \/ (exists k d, (k, GeneralVarData true d) ∈ _data mc) ->
  (exists e, __init__ model = Raise e)
  /\ forall self, __init__ model <> Ok self.
Proof.
  intros Hc Hin Hbad.
  assert (Hraise : exists e, __init__ model = Raise e).
  { destruct (instru_params_of model) as [ps|e] eqn:Hv.
    - exfalso. unfold instru_params_of in Hv.
      destruct (for_each_ok _ _ _ _ _ Hv Hin) as (s0 & s1 & Hok).
      destruct (unsupported_variable_raises mc s0 Hbad) as (e & He).
      rewrite He in Hok. discriminate.
    - exists e. exact (init_variables_fail model _ Hc Hv). }
  split; [exact Hraise | ].
  destruct Hraise as (e & Hr). intros self. rewrite Hr. discriminate.
Qed.

(** When the variables before it are translated, the variable that raises
    decides the error of construction. *)
Lemma first_raising_variable_decides model pre mc post ps e :
  is_concrete model = true ->
  component_objects as_Var model = pre ++ mc :: post ->
  for_each (fun ps v => _make_pyomo_variable_to_parametrization v ps) pre ∅
  = Ok ps ->
  _make_pyomo_variable_to_parametrization mc ps = Raise e ->
  __init__ model = Raise e.
Proof.
  intros Hc Hvars Hpre Hmc. apply (init_variables_fail model e Hc).
  unfold instru_params_of. rewrite Hvars, for_each_app, Hpre.
  cbn [bind for_each]. rewrite Hmc. reflexivity.
Qed.

(** So with the variables before it translated, an unknown container gives
    the Unsupported-Domain error of line 60, and so does, by line 64, a
    fixed entry whose variable has no entry before it. *)
Lemma unknown_container_reached model pre mc post ps :
  is_concrete model = true ->
  component_objects as_Var model = pre ++ mc :: post ->
  for_each (fun ps v => _make_pyomo_variable_to_parametrization v ps) pre ∅
  = Ok ps ->
  var_class mc = OtherVarClass ->
  __init__ model = Raise (NotImplementedError VarContainerNotSupported).
Proof.
  intros Hc Hvars Hpre Hclass.
  apply (first_raising_variable_decides model pre mc post ps _ Hc Hvars Hpre).
  unfold _make_pyomo_variable_to_parametrization. rewrite Hclass. reflexivity.
Qed.

Lemma fixed_first_entry_reached model pre mc post ps k d rest :
  is_concrete model = true ->
  component_objects as_Var model = pre ++ mc :: post ->
  for_each (fun ps v => _make_pyomo_variable_to_parametrization v ps) pre ∅
  = Ok ps ->
  var_class mc <> OtherVarClass ->
  _data mc = (k, GeneralVarData true d) :: rest ->
  __init__ model = Raise (NotImplementedError FixedVarNotSupported).
Proof.
  intros Hc Hvars Hpre Hclass Hdata.
  apply (first_raising_variable_decides model pre mc post ps _ Hc Hvars Hpre).
  unfold _make_pyomo_variable_to_parametrization. rewrite Hdata.
  destruct (var_class mc); [reflexivity | reflexivity | congruence].
Qed.

(** C9 (the code departs from it).  The model has a variable over
    [Integers] and, declared after it, a variable that is fixed.  The
    domain of the first is not a single range, so line 45 is reached: the
    name it looks up does not exist, and construction ends with an
    [AttributeError], which is not an error of the Unsupported-Domain kind.
    The fixed variable is never looked at. *)
Theorem fixed_variable_behind_integers_raises_attribute_error :
  __init__ integers_then_fixed = Raise AttributeError
  /\ raised_kind (__init__ integers_then_fixed) = None
  /\ exists mc k d,
       mc ∈ component_objects as_Var integers_then_fixed
       /\ (k, GeneralVarData true d) ∈ _data mc.
Proof.
  split; [reflexivity | split; [reflexivity | ]].
  exists {| var_name := "y"; var_class := SimpleVar;
            _data := [(KNone, GeneralVarData true (DRangeSet Reals))] |},
         KNone, (DRangeSet Reals).
  split; [right; right; left | left].
Qed.

(** Alone in its model, the fixed variable gives the error the claim
    names. *)
Lemma fixed_variable_alone_is_refused :
  __init__ fixed_y = Raise (NotImplementedError FixedVarNotSupported)
  /\ raised_kind (__init__ fixed_y) = Some UnsupportedDomain.
Proof. split; reflexivity. Qed.

(** C4.  For an instantiated model whose variables are all translated:
    without an active objective construction raises the Missing-Objective
    error, with two or more it raises the Multiple-Objectives error, and an
    adapter is built exactly when there is one active objective. *)
Theorem objective_count_decides_construction model ps :
  is_concrete model = true ->
  instru_params_of model = Ok ps ->
  let n := length (component_objects as_Objective model) in
  (n = 0%nat ->
     __init__ model = Raise (NotImplementedError CannotFindObjective)
     /\ raised_kind (__init__ model) = Some MissingObjective)
  /\ ((2 <= n)%nat ->
     __init__ model = Raise (NotImplementedError MultiObjectiveNotSupported)
     /\ raised_kind (__init__ model) = Some MultipleObjectives)
  /\ (n = 1%nat <-> exists self, __init__ model = Ok self).
Proof.
  intros Hc Hv n. subst n.
  rewrite (init_after_variables model ps Hc Hv).
  destruct (component_objects as_Objective model) as [|o [|o' objs]];
    cbn [length raised_kind classify].
  - split; [ | split; [ | split ] ].
    + intros _. split; reflexivity.
    + intros H. lia.
    + discriminate.
    + intros (self & H). discriminate.
  - split; [ | split; [ | split ] ].
    + discriminate.
    + intros H. lia.
    + intros _. eexists. reflexivity.
    + reflexivity.
  - split; [ | split; [ | split ] ].
    + discriminate.
    + intros _. split; reflexivity.
    + intros H. lia.
    + intros (self & H). discriminate.
Qed.

(** On [knapsack] without its objective. *)
Lemma objective_count_decides_construction_witness :
  __init__ no_objective = Raise (NotImplementedError CannotFindObjective)
  /\ raised_kind (__init__ no_objective) = Some MissingObjective.
Proof.
  apply (objective_count_decides_construction no_objective knapsack_params).
  - reflexivity.
  - exact no_objective_variables.
  - reflexivity.
Defined.

(** Construction succeeds only with exactly one active objective, whatever
    the model. *)
Lemma built_only_with_one_objective model self :
  __init__ model = Ok self ->
  length (component_objects as_Objective model) = 1%nat.
Proof.
  intros H. apply init_ok_inv in H as (_ & _ & (o & -> & _) & _). reflexivity.
Qed.

End ConstructionClaims.

(** ** The objective wrapper *)

Section ObjectiveWrapper.

Implicit Types (self : Pyomo) (k_model_variables : kwargs).

Lemma obj_wrapper_unfold self i k_model_variables :
  _pyomo_obj_function_wrapper self i k_model_variables
  = (match all_objectives self !! i with
     | Some o =>
         v <-- value (obj_expr o (values (inject k_model_variables
                                                 (_model_instance self)))) ;;
         Ok (Float64.mul v (Float64.of_Z (sense o)))
     | None => Raise IndexError
     end,
     with_model self (inject k_model_variables (_model_instance self))).
Proof. reflexivity. Qed.

(** The wrappers leave the lists of objectives and constraints alone, so
    what holds of a fresh adapter holds after any number of evaluations. *)
Lemma obj_wrapper_keeps_components self i k_model_variables :
  let self' := (_pyomo_obj_function_wrapper self i k_model_variables).2 in
  all_objectives self' = all_objectives self
  /\ all_constraints self' = all_constraints self.
Proof. split; reflexivity. Qed.

(** C3.  With a single objective [o], the objective wrapper writes the
    assignment into the model and returns the value [V] of the objective's
    expression in the model so updated, multiplied by the objective's sense;
    for a maximization objective that is [-V]. *)
Theorem objective_wrapper_multiplies_by_sense self k_model_variables o V :
  all_objectives self = [o] ->
  obj_expr o (values (inject k_model_variables (_model_instance self))) = Some V ->
  let outcome := (_pyomo_obj_function_wrapper self 0 k_model_variables).1 in
  outcome = Ok (Float64.mul V (Float64.of_Z (sense o)))
  /\ (sense o = maximize -> Float64.valid V = true ->
      outcome = Ok (Float64.opp V)).
Proof.
  intros Hobjs HV outcome. subst outcome.
  rewrite obj_wrapper_unfold. cbn [fst]. rewrite Hobjs. cbn [lookup list_lookup].
  rewrite HV. cbn [value bind].
  split; [reflexivity | ].
  intros Hs Hvalid. rewrite Hs, (mul_maximize V Hvalid). reflexivity.
Qed.

(** On [knapsack]: the load of hammer, screwdriver and towel is worth 25, and
    the wrapper returns -25. *)
Lemma objective_wrapper_multiplies_by_sense_witness :
  (_pyomo_obj_function_wrapper pyomo_knapsack 0 load).1
  = Ok (Float64.opp (Float64.of_Z 25)).
Proof.
  apply (objective_wrapper_multiplies_by_sense
           pyomo_knapsack load knapsack_value (Float64.of_Z 25)).
  - reflexivity.
  - vm_compute. reflexivity.
  - reflexivity.
  - vm_compute. reflexivity.
Defined.

End ObjectiveWrapper.

(** ** The constraint wrapper *)

Section ConstraintWrapper.

Implicit Types (self : Pyomo) (items : list (key * ConstraintData))
  (st : store) (trace : list key).

Lemma constraint_wrapper_unfold self i instru :
  _pyomo_constraint_wrapper self i instru
  = (let st := values (inject instru.2 (_model_instance self)) in
     match all_constraints self !! i with
     | Some (SimpleConstraint _ expr) => value (expr st)
     | Some (IndexedConstraint _ items) => (indexed_loop items st true []).1
     | Some (OtherConstraint _) =>
         Raise (NotImplementedError ConstraintTypeNotSupported)
     | None => Raise IndexError
     end,
     with_model self (inject instru.2 (_model_instance self))).
Proof. reflexivity. Qed.

(** Through satisfied members the loop goes on. *)
Lemma indexed_loop_satisfied pre items st trace :
  Forall (satisfied st) pre ->
  indexed_loop (pre ++ items) st true trace
  = indexed_loop items st true (trace ++ pre.*1).
Proof.
  intros Hpre. revert trace.
  induction Hpre as [|[k c] pre Hk _ IH]; intros trace.
  - cbn [app fmap list_fmap]. rewrite app_nil_r. reflexivity.
  - cbn [app indexed_loop]. unfold satisfied in Hk. cbn [snd] in Hk.
    rewrite Hk. cbn [value negb]. rewrite IH.
    rewrite fmap_cons, <- app_assoc. reflexivity.
Qed.

Lemma indexed_loop_all_satisfied items st trace :
  Forall (satisfied st) items ->
  indexed_loop items st true trace = (Ok true, trace ++ items.*1).
Proof.
  intros H. rewrite <- (app_nil_r items) at 1.
  rewrite (indexed_loop_satisfied _ _ _ _ H). reflexivity.
Qed.

(** At the first violated member the loop ends: the members behind it play
    no part in the outcome and are not evaluated. *)
Lemma indexed_loop_first_violation pre k c post st trace :
  Forall (satisfied st) pre ->
  c st = Some false ->
  indexed_loop (pre ++ (k, c) :: post) st true trace
  = (Ok false, trace ++ pre.*1 ++ [k]).
Proof.
  intros Hpre Hc. rewrite (indexed_loop_satisfied _ _ _ _ Hpre).
  cbn [indexed_loop]. rewrite Hc. cbn [value negb].
  rewrite <- app_assoc. reflexivity.
Qed.

Lemma indexed_loop_true_inv items st trace :
  (indexed_loop items st true trace).1 = Ok true ->
  Forall (satisfied st) items.
Proof.
  revert trace. induction items as [|[k c] items IH]; intros trace.
  - constructor.
  - cbn [indexed_loop]. destruct (c st) as [[|]|] eqn:Hc; cbn [value negb fst].
    + intros H. constructor; [exact Hc | exact (IH _ H)].
    + discriminate.
    + discriminate.
Qed.

(** When every member has a value and one of them is violated, the loop
    returns false. *)
Lemma indexed_loop_some_violation items st trace :
  Forall (fun kc => is_Some (kc.2 st)) items ->
  Exists (violated st) items ->
  (indexed_loop items st true trace).1 = Ok false.
Proof.
  intros Htot. revert trace.
  induction Htot as [|[k c] items [b Hb] _ IH]; intros trace Hex.
  - inversion Hex.
  - cbn [snd] in Hb. cbn [indexed_loop]. rewrite Hb. cbn [value].
    destruct b; cbn [negb fst].
    + apply IH. inversion Hex as [? ? Hv | ? ? Hv]; subst; [ | exact Hv ].
      unfold violated in Hv. cbn [snd] in Hv. congruence.
    + reflexivity.
Qed.

(** The loop raises nothing but what [pyomo.value] raises. *)
Lemma indexed_loop_raise items st trace e :
  (indexed_loop items st true trace).1 = Raise e -> e = PyomoError.
Proof.
  revert trace. induction items as [|[k c] items IH]; intros trace.
  - discriminate.
  - cbn [indexed_loop]. destruct (c st) as [[|]|]; cbn [value negb fst].
    + apply IH.
    + discriminate.
    + intros [= <-]. reflexivity.
Qed.

(** C5.  For an indexed constraint the wrapper returns true exactly when
    every member is satisfied in the model holding the assignment.  When a
    member is violated and the members before it are satisfied, it returns
    false whatever the members behind are, and it has evaluated the members
    up to the violated one and no other.  With all members having a value
    and at least one of them violated, it returns false. *)
Theorem indexed_constraint_is_conjunction self i name items instru :
  all_constraints self !! i = Some (IndexedConstraint name items) ->
  let st := values (inject instru.2 (_model_instance self)) in
  let outcome := (_pyomo_constraint_wrapper self i instru).1 in
  (outcome = Ok true <-> Forall (satisfied st) items)
  /\ (forall pre k c post,
        items = pre ++ (k, c) :: post ->
        Forall (satisfied st) pre -> c st = Some false ->
        outcome = Ok false
        /\ (indexed_loop items st true []).2 = pre.*1 ++ [k])
  /\ (Forall (fun kc => is_Some (kc.2 st)) items ->
      Exists (violated st) items -> outcome = Ok false).
Proof.
  intros Hi st outcome. subst outcome.
  rewrite constraint_wrapper_unfold. cbn zeta. cbn [fst]. rewrite Hi. fold st.
  split; [ | split ].
  - split.
    + apply indexed_loop_true_inv.
    + intros H. rewrite (indexed_loop_all_satisfied _ _ _ H). reflexivity.
  - intros pre k c post -> Hpre Hc.
    rewrite (indexed_loop_first_violation _ _ _ _ _ _ Hpre Hc).
    split; reflexivity.
  - apply indexed_loop_some_violation.
Qed.

End ConstraintWrapper.

Section LimitsFacts.

Lemma knapsack_limits_variables :
  instru_params_of knapsack_limits = Ok knapsack_params.
Proof. vm_compute. reflexivity. Qed.

Lemma init_knapsack_limits : __init__ knapsack_limits = Ok pyomo_limits.
Proof.
  rewrite (init_after_variables knapsack_limits knapsack_params eq_refl
             knapsack_limits_variables).
  reflexivity.
Qed.

Lemma init_odd_constraint : __init__ odd_constraint = Ok pyomo_odd.
Proof.
  rewrite (init_after_variables odd_constraint knapsack_params eq_refl
             odd_constraint_variables).
  reflexivity.
Qed.

(** On [limits]: the second member is violated by the load, and the third,
    which would raise, is not evaluated. *)
Lemma indexed_constraint_is_conjunction_witness :
  (_pyomo_constraint_wrapper pyomo_limits 1 ([], load)).1 = Ok false
  /\ (indexed_loop limits_items (values (inject load knapsack_limits)) true []).2
     = [KInt 1; KInt 2].
Proof.
  refine (proj1 (proj2 (indexed_constraint_is_conjunction
                          pyomo_limits 1 "limits" limits_items ([], load) eq_refl))
            [(KInt 1, at_most_once)] (KInt 2) at_least_once [(KInt 3, broken)]
            eq_refl _ _).
  - constructor; [ vm_compute; reflexivity | constructor ].
  - vm_compute. reflexivity.
Defined.

End LimitsFacts.

Section LazyConstraintError.

Implicit Types (model : Model) (self : Pyomo).

(** Construction never raises the Unsupported-Constraint error. *)
Lemma init_never_raises_constraint_error model :
  __init__ model <> Raise (NotImplementedError ConstraintTypeNotSupported).
Proof.
  intros H.
  destruct (is_concrete model) eqn:Hc;
    [ | rewrite init_abstract in H by exact Hc; discriminate ].
  destruct (instru_params_of model) as [ps|e] eqn:Hv.
  - rewrite (init_after_variables model ps Hc Hv) in H.
    destruct (component_objects as_Objective model) as [|o [|o' objs]];
      discriminate.
  - rewrite (init_variables_fail model e Hc Hv) in H. injection H as ->.
    destruct (instru_params_error model _ Hv) as [[=] | (site & [= <-] & Hk)].
    discriminate.
Qed.

(** The objective wrapper never raises it either. *)
Lemma obj_wrapper_never_raises_constraint_error self i k_model_variables :
  (_pyomo_obj_function_wrapper self i k_model_variables).1
  <> Raise (NotImplementedError ConstraintTypeNotSupported).
Proof.
  rewrite obj_wrapper_unfold. cbn [fst].
  destruct (all_objectives self !! i) as [o|]; [ | discriminate ].
  destruct (obj_expr o _); discriminate.
Qed.

(** The constraint wrapper raises it only on a constraint of an unknown
    class. *)
Lemma constraint_error_only_on_unknown_class self i instru :
  (_pyomo_constraint_wrapper self i instru).1
  = Raise (NotImplementedError ConstraintTypeNotSupported) ->
  exists name, all_constraints self !! i = Some (OtherConstraint name).
Proof.
  rewrite constraint_wrapper_unfold. cbn zeta. cbn [fst].
  destruct (all_constraints self !! i) as [[n expr | n items | n]|].
  - destruct (expr _); discriminate.
  - intros H. apply indexed_loop_raise in H. discriminate.
  - intros _. exists n. reflexivity.
  - discriminate.
Qed.

(** C8.  A constraint that is neither a simple nor an indexed constraint
    does not keep the adapter from being built: for an instantiated model
    whose variables are all translated and which has one active objective,
    construction succeeds whatever its constraints are.  On the adapter, the
    constraint wrapper raises the Unsupported-Constraint error when it is
    called on such a constraint, and only then; the objective wrapper never
    raises it. *)
Theorem unsupported_constraint_fails_at_evaluation model ps o :
  is_concrete model = true ->
  instru_params_of model = Ok ps ->
  component_objects as_Objective model = [o] ->
  exists self,
    __init__ model = Ok self
    /\ all_constraints self = component_objects as_Constraint model
    /\ (forall i name instru,
          all_constraints self !! i = Some (OtherConstraint name) ->
          (_pyomo_constraint_wrapper self i instru).1
          = Raise (NotImplementedError ConstraintTypeNotSupported)
          /\ raised_kind (_pyomo_constraint_wrapper self i instru).1
             = Some UnsupportedConstraintKind)
    /\ (forall i instru,
          (_pyomo_constraint_wrapper self i instru).1
          = Raise (NotImplementedError ConstraintTypeNotSupported) ->
          exists name, all_constraints self !! i = Some (OtherConstraint name))
    /\ (forall i k_model_variables,
          (_pyomo_obj_function_wrapper self i k_model_variables).1
          <> Raise (NotImplementedError ConstraintTypeNotSupported)).
Proof.
  intros Hc Hv Hobj.
  eexists. split.
  { rewrite (init_after_variables model ps Hc Hv), Hobj. reflexivity. }
  split; [reflexivity | ].
  split; [ | split ].
  - intros i name instru Hi.
    rewrite constraint_wrapper_unfold. cbn zeta. cbn [fst].
    rewrite Hi. split; reflexivity.
  - intros i instru. apply constraint_error_only_on_unknown_class.
  - intros i kw. apply obj_wrapper_never_raises_constraint_error.
Qed.

(** On [knapsack] with a constraint of an unknown class. *)
Lemma unsupported_constraint_fails_at_evaluation_witness :
  exists self,
    __init__ odd_constraint = Ok self
    /\ all_constraints self = component_objects as_Constraint odd_constraint
    /\ (forall i name instru,
          all_constraints self !! i = Some (OtherConstraint name) ->
          (_pyomo_constraint_wrapper self i instru).1
          = Raise (NotImplementedError ConstraintTypeNotSupported)
          /\ raised_kind (_pyomo_constraint_wrapper self i instru).1
             = Some UnsupportedConstraintKind)
    /\ (forall i instru,
          (_pyomo_constraint_wrapper self i instru).1
          = Raise (NotImplementedError ConstraintTypeNotSupported) ->
          exists name, all_constraints self !! i = Some (OtherConstraint name))
    /\ (forall i k_model_variables,
          (_pyomo_obj_function_wrapper self i k_model_variables).1
          <> Raise (NotImplementedError ConstraintTypeNotSupported)).
Proof.
  apply (unsupported_constraint_fails_at_evaluation
           odd_constraint knapsack_params knapsack_value).
  - reflexivity.
  - exact odd_constraint_variables.
  - reflexivity.
Defined.

(** On the sample: the adapter is built, the known constraint is evaluated,
    the unknown one raises when it is its turn. *)
Lemma odd_constraint_sample :
  __init__ odd_constraint = Ok pyomo_odd
  /\ (_pyomo_constraint_wrapper pyomo_odd 0 ([], load)).1 = Ok true
  /\ (_pyomo_constraint_wrapper pyomo_odd 1 ([], load)).1
     = Raise (NotImplementedError ConstraintTypeNotSupported).
Proof.
  split; [exact init_odd_constraint | ].
  split; [vm_compute; reflexivity | reflexivity].
Qed.

End LazyConstraintError.

(** ** Strings as lists of characters *)

Section Chars.

Lemma chars_app (s t : string) : chars (s +:+ t) = chars s ++ chars t.
Proof.
  unfold chars. induction s as [|c s IH].
  - reflexivity.
  - change (String c s +:+ t) with (String c (s +:+ t)).
    cbn [String.list_ascii_of_string app]. rewrite IH. reflexivity.
Qed.

Lemma chars_inj (s t : string) : chars s = chars t -> s = t.
Proof.
  intros H. rewrite <- (String.string_of_list_ascii_of_string s),
    <- (String.string_of_list_ascii_of_string t).
  unfold chars in H. rewrite H. reflexivity.
Qed.

Lemma pretty_N_char_numeral (x : N) : numeral_char (pretty_N_char x) = true.
Proof. unfold pretty_N_char. repeat case_match; reflexivity. Qed.

Lemma pretty_N_go_chars (x : N) (s : string) :
  exists l, numeral l /\ chars (pretty_N_go x s) = l ++ chars s
            /\ ((0 < x)%N -> l <> []).
Proof.
  revert s. induction (N.lt_wf_0 x) as [x _ IH]; intros s.
  destruct (decide (x = 0)%N) as [-> | Hx].
  - exists []. rewrite pretty_N_go_0. split; [constructor | ].
    split; [reflexivity | lia].
  - rewrite pretty_N_go_step by lia.
    destruct (IH (x `div` 10)%N (N.div_lt x 10 ltac:(lia) ltac:(lia))
                 (String (pretty_N_char (x `mod` 10)) s)) as (l & Hl & Heq & _).
    exists (l ++ [pretty_N_char (x `mod` 10)%N]).
    split; [ | split ].
    + apply Forall_app. split; [exact Hl | ].
      constructor; [apply pretty_N_char_numeral | constructor].
    + rewrite Heq, <- app_assoc. reflexivity.
    + intros _ Hnil. apply app_eq_nil in Hnil as [_ Hnil]. discriminate.
Qed.

Lemma pretty_N_chars (x : N) :
  numeral (chars (pretty x)) /\ chars (pretty x) <> [].
Proof.
  unfold pretty, pretty_N. case_decide as Hx.
  - split; [ | discriminate ].
    repeat constructor.
  - destruct (pretty_N_go_chars x EmptyString) as (l & Hl & Heq & Hne).
    cbn [chars String.list_ascii_of_string] in Heq. rewrite app_nil_r in Heq.
    change (String.list_ascii_of_string (pretty_N_go x EmptyString))
      with (chars (pretty_N_go x EmptyString)).
    rewrite Heq. split; [exact Hl | apply Hne; lia].
Qed.

(** [str(z)] is a non-empty run of numeral characters. *)
Lemma pretty_Z_chars (z : Z) :
  numeral (chars (pretty z)) /\ chars (pretty z) <> [].
Proof.
  destruct z as [|p|p]; unfold pretty, pretty_Z.
  - split; [repeat constructor | discriminate].
  - exact (pretty_N_chars (N.pos p)).
  - destruct (pretty_N_chars (N.pos p)) as [Hn _].
    rewrite chars_app. split; [ | discriminate ].
    apply Forall_app. split; [repeat constructor | exact Hn].
Qed.

(** Two numerals followed by other characters: where the first other
    character is tells the numerals apart. *)
Lemma numeral_split (a a' : list ascii) (c c' : ascii) (r r' : list ascii) :
  numeral a -> numeral a' ->
  numeral_char c = false -> numeral_char c' = false ->
  a ++ c :: r = a' ++ c' :: r' ->
  a = a' /\ c = c' /\ r = r'.
Proof.
  intros Ha. revert a'.
  induction Ha as [|x a Hx _ IH]; intros a' Ha' Hc Hc' Heq.
  - destruct Ha' as [|x' a' Hx' _]; cbn in Heq.
    + injection Heq as -> ->. auto.
    + injection Heq as -> _. congruence.
  - destruct Ha' as [|x' a' Hx' Ha']; cbn in Heq.
    + injection Heq as -> _. congruence.
    + injection Heq as -> Heq.
      destruct (IH a' Ha' Hc Hc' Heq) as (-> & -> & ->). auto.
Qed.

End Chars.

(** ** Names of parameters *)

Section Names.

Lemma pretty_Z_head (z : Z) :
  exists c l, chars (pretty z) = c :: l /\ numeral_char c = true /\ numeral l.
Proof.
  destruct (pretty_Z_chars z) as [Hn Hne].
  destruct (chars (pretty z)) as [|c l]; [congruence | ].
  exists c, l. inversion Hn; subst. auto.
Qed.

Lemma chars_tuple_items_cons (z z' : Z) (rest : list Z) :
  chars (tuple_items (z :: z' :: rest))
  = chars (pretty z) ++ chars ", " ++ chars (tuple_items (z' :: rest)).
Proof.
  change (tuple_items (z :: z' :: rest))
    with (pretty z +:+ ", " +:+ tuple_items (z' :: rest)).
  rewrite !chars_app. reflexivity.
Qed.

(** The items of a non-empty tuple, closed by a parenthesis, determine the
    tuple. *)
Lemma tuple_items_inj (zs zs' : list Z) :
  zs <> [] -> zs' <> [] ->
  chars (tuple_items zs) ++ chars ")" = chars (tuple_items zs') ++ chars ")" ->
  zs = zs'.
Proof.
  revert zs'. induction zs as [|z zs IH]; intros zs' Hne Hne' Heq;
    [congruence | ].
  destruct zs' as [|z' zs']; [congruence | ].
  destruct zs as [|z2 rest], zs' as [|z2' rest'];
    rewrite ?chars_tuple_items_cons in Heq; cbn [tuple_items] in Heq;
    rewrite <- ?app_assoc in Heq;
    cbn [chars String.list_ascii_of_string app] in Heq;
    fold (chars (pretty z)) in Heq; fold (chars (pretty z')) in Heq;
    (apply numeral_split in Heq as (H & Hc & Hr);
     [ | apply pretty_Z_chars | apply pretty_Z_chars
       | reflexivity | reflexivity ]);
    try discriminate.
  - apply chars_inj, (inj pretty) in H. congruence.
  - apply chars_inj, (inj pretty) in H. subst z'.
    injection Hr as Hr.
    fold (chars (tuple_items (z2 :: rest))) in Hr.
    fold (chars (tuple_items (z2' :: rest'))) in Hr.
    rewrite (IH (z2' :: rest') ltac:(discriminate) ltac:(discriminate) Hr).
    reflexivity.
Qed.

Lemma chars_convert_str (s : string) :
  chars (_convert_to_ng_name (KStr s))
  = ascii_of_nat 34 :: chars s ++ [ascii_of_nat 34].
Proof.
  cbn [_convert_to_ng_name]. rewrite !chars_app. reflexivity.
Qed.

Lemma chars_convert_tuple (zs : list Z) :
  chars (_convert_to_ng_name (KTuple zs)) = "("%char :: tuple_body zs.
Proof.
  destruct zs as [|z [|z2 rest]]; cbn [_convert_to_ng_name py_str tuple_body];
    rewrite !chars_app; reflexivity.
Qed.

Lemma leading_convert (k : key) :
  leading (chars (_convert_to_ng_name k)) = key_kind k.
Proof.
  destruct k as [|s|z|zs].
  - reflexivity.
  - rewrite chars_convert_str. reflexivity.
  - cbn [_convert_to_ng_name py_str key_kind].
    destruct (pretty_Z_head z) as (c & l & -> & Hc & _).
    cbn [leading]. rewrite Hc. reflexivity.
  - rewrite chars_convert_tuple. reflexivity.
Qed.

Lemma tuple_body_inj (zs zs' : list Z) :
  tuple_body zs = tuple_body zs' -> zs = zs'.
Proof.
  assert (Hhead : forall (z : Z) r, chars ")" <> chars (pretty z) ++ r).
  { intros z r H. destruct (pretty_Z_head z) as (c & l & Hz & Hc & _).
    rewrite Hz in H. injection H as <- _. discriminate. }
  destruct zs as [|z [|z2 rest]], zs' as [|z' [|z2' rest']];
    cbn [tuple_body]; intros H; try reflexivity.
  - destruct (Hhead _ _ H).
  - rewrite chars_tuple_items_cons, <- app_assoc in H. destruct (Hhead _ _ H).
  - symmetry in H. destruct (Hhead _ _ H).
  - apply numeral_split in H as (H & _ & _);
      [ | apply pretty_Z_chars | apply pretty_Z_chars
        | reflexivity | reflexivity ].
    apply chars_inj, (inj pretty) in H. congruence.
  - rewrite chars_tuple_items_cons, <- !app_assoc in H.
    apply numeral_split in H as (_ & _ & H);
      [ | apply pretty_Z_chars | apply pretty_Z_chars
        | reflexivity | reflexivity ].
    discriminate.
  - symmetry in H. rewrite chars_tuple_items_cons, <- app_assoc in H.
    destruct (Hhead _ _ H).
  - rewrite chars_tuple_items_cons, <- !app_assoc in H.
    apply numeral_split in H as (_ & _ & H);
      [ | apply pretty_Z_chars | apply pretty_Z_chars
        | reflexivity | reflexivity ].
    discriminate.
  - apply tuple_items_inj in H; [exact H | discriminate | discriminate].
Qed.

(** [_convert_to_ng_name] tells any two keys apart. *)
Lemma convert_to_ng_name_inj (k k' : key) :
  _convert_to_ng_name k = _convert_to_ng_name k' -> k = k'.
Proof.
  intros H. apply (f_equal chars) in H.
  assert (Hkind := f_equal leading H). rewrite !leading_convert in Hkind.
  destruct k as [|s|z|zs], k' as [|s'|z'|zs']; try discriminate Hkind.
  - reflexivity.
  - rewrite !chars_convert_str in H. injection H as H.
    apply app_inj_tail in H as [H _]. apply chars_inj in H. congruence.
  - cbn [_convert_to_ng_name py_str] in H.
    apply chars_inj, (inj pretty) in H. congruence.
  - rewrite !chars_convert_tuple in H. injection H as H.
    apply tuple_body_inj in H. congruence.
Qed.

Lemma chars_params_name (name : string) (k : key) :
  chars (params_name_of name k)
  = chars name ++ match k with
                  | KNone => []
                  | _ => chars "[" ++ chars (_convert_to_ng_name k) ++ chars "]"
                  end.
Proof.
  destruct k; cbn [params_name_of]; rewrite ?chars_app, ?app_nil_r;
    reflexivity.
Qed.

(** Within one variable, different keys give different parameter names. *)
Lemma params_name_of_inj (name : string) (k k' : key) :
  params_name_of name k = params_name_of name k' -> k = k'.
Proof.
  intros H. apply (f_equal chars) in H. rewrite !chars_params_name in H.
  apply app_inv_head in H.
  assert (Hconv : forall a b : key,
            chars "[" ++ chars (_convert_to_ng_name a) ++ chars "]"
            = chars "[" ++ chars (_convert_to_ng_name b) ++ chars "]" -> a = b).
  { intros a b Hab. apply app_inv_head in Hab.
    apply app_inj_tail in Hab as [Hab _].
    apply chars_inj in Hab. exact (convert_to_ng_name_inj _ _ Hab). }
  destruct k, k'; try discriminate H; try reflexivity; exact (Hconv _ _ H).
Qed.

End Names.

(** ** One parameter per entry *)

Section Entries.

Implicit Types (params : ParamDict) (mc : Var) (name : string).

Lemma range_set_ok d params name params' :
  _make_pyomo_range_set_to_parametrization d params name = Ok params' ->
  exists P, params' = <[name := P]> params.
Proof.
  unfold _make_pyomo_range_set_to_parametrization. cbv zeta. intros H.
  destruct (ranges d) as [|r [|r' rs]]; try discriminate H.
  destruct (bool_decide (range_step r ∈ [-1; 0; 1])); [ | discriminate H ].
  destruct r as [start end_ step [c1 c2] | step]; [ | discriminate ].
  destruct (step <? 0); injection H as <-; eexists; reflexivity.
Qed.

Lemma translate_entry_ok name params k v params' :
  translate_entry name params (k, v) = Ok params' ->
  exists P, params' = <[params_name_of name k := P]> params.
Proof.
  destruct v as [is_fixed [d | isfinite isordered od dt | ] | ];
    cbn [translate_entry]; try discriminate.
  - destruct is_fixed; [discriminate | apply range_set_ok].
  - destruct is_fixed, isfinite, isordered; try discriminate;
      intros [= <-]; eexists; reflexivity.
  - destruct is_fixed; discriminate.
Qed.

(** The loop over the entries adds the entries' names and touches no other
    name. *)
Lemma entries_ok name entries params params' :
  for_each (translate_entry name) entries params = Ok params' ->
  dom params' = dom params ∪ list_to_set (params_name_of name <$> entries.*1)
  /\ forall n, n ∉ params_name_of name <$> entries.*1 ->
               params' !! n = params !! n.
Proof.
  revert params. induction entries as [|[k v] entries IH]; intros params.
  - intros [= <-]. cbn [fmap list_fmap list_to_set].
    split; [rewrite (right_id_L ∅ (∪)); reflexivity | reflexivity].
  - cbn [for_each].
    destruct (translate_entry name params (k, v)) as [ps|e] eqn:Hkv;
      cbn [bind]; [ | discriminate ].
    intros H. destruct (IH _ H) as [Hdom Hrest].
    destruct (translate_entry_ok _ _ _ _ _ Hkv) as (P & ->).
    split.
    + rewrite Hdom, dom_insert_L. cbn [fmap list_fmap list_to_set fst].
      rewrite (comm_L (∪) {[params_name_of name k]} (dom params)).
      rewrite (assoc_L (∪)). reflexivity.
    + intros n Hn. cbn in Hn. apply not_elem_of_cons in Hn as [Hne Hn].
      rewrite (Hrest n Hn). apply lookup_insert_ne. congruence.
Qed.

Lemma variable_loop mc params params' :
  _make_pyomo_variable_to_parametrization mc params = Ok params' ->
  for_each (translate_entry (var_name mc)) (_data mc) params = Ok params'.
Proof.
  unfold _make_pyomo_variable_to_parametrization.
  destruct (var_class mc); [tauto | tauto | discriminate].
Qed.

(** C7.  The name of the parameter of an entry is the variable's name alone
    for the key [None] of a scalar variable, and otherwise the variable's
    name followed by the key in brackets, a string key between double
    quotes and any other key as [str] renders it.  When the translation of a
    variable succeeds, the names of its entries are pairwise distinct, one
    per entry, each of them is bound to a parameter, and no other name of
    the dictionary is touched. *)
Theorem one_parameter_per_entry mc params params' :
  _make_pyomo_variable_to_parametrization mc params = Ok params' ->
  NoDup (_data mc).*1 ->
  let name := var_name mc in
  let names := params_name_of name <$> (_data mc).*1 in
  (params_name_of name KNone = name
   /\ (forall s, params_name_of name (KStr s)
                 = name +:+ "[" +:+ (dquote +:+ s +:+ dquote) +:+ "]")
   /\ (forall z, params_name_of name (KInt z)
                 = name +:+ "[" +:+ pretty z +:+ "]")
   /\ (forall zs, params_name_of name (KTuple zs)
                  = name +:+ "[" +:+ py_str (KTuple zs) +:+ "]"))
  /\ NoDup names
  /\ length names = length (_data mc)
  /\ dom params' = dom params ∪ list_to_set names
  /\ (forall k v, (k, v) ∈ _data mc ->
                  is_Some (params' !! params_name_of name k))
  /\ (forall n, n ∉ names -> params' !! n = params !! n).
Proof.
  intros Hok Hkeys name names.
  apply variable_loop in Hok. destruct (entries_ok _ _ _ _ Hok) as [Hdom Hrest].
  split; [ repeat split | ].
  split.
  { subst names. apply NoDup_fmap_2; [ | exact Hkeys ].
    intros k k'. apply params_name_of_inj. }
  split; [ subst names; rewrite !length_fmap; reflexivity | ].
  split; [exact Hdom | ].
  split; [ | exact Hrest ].
  intros k v Hin. apply elem_of_dom. rewrite Hdom.
  apply elem_of_union_r, elem_of_list_to_set, list_elem_of_fmap.
  exists k. split; [reflexivity | ].
  apply list_elem_of_fmap. exists (k, v). split; [reflexivity | exact Hin].
Qed.

(** On [knapsack.x], with its four string keys. *)
Lemma one_parameter_per_entry_witness :
  NoDup (params_name_of "x" <$> (_data knapsack_x).*1)
  /\ length (params_name_of "x" <$> (_data knapsack_x).*1)
     = length (_data knapsack_x)
  /\ dom knapsack_params
     = dom (∅ : ParamDict)
       ∪ list_to_set (params_name_of "x" <$> (_data knapsack_x).*1).
Proof.
  pose proof (one_parameter_per_entry knapsack_x ∅ knapsack_params) as H.
  destruct H as (_ & Hnodup & Hlen & Hdom & _).
  - vm_compute. reflexivity.
  - apply (bool_decide_unpack _). vm_compute. exact I.
  - split; [exact Hnodup | split; [exact Hlen | exact Hdom]].
Defined.

End Entries.

(** * Further properties *)

(** ** What the translators accept, and how they treat the dictionary *)

Section TranslatorOutcome.

Implicit Types (params : ParamDict) (mc : Var) (name : string).

(** The range translator binds [name] and nothing else, to a parameter that
    does not depend on the dictionary. *)
Lemma range_set_outcome d params name :
  _make_pyomo_range_set_to_parametrization d params name
  = (r <-- _make_pyomo_range_set_to_parametrization d ∅ name ;;
     Ok (r ∪ params)).
Proof.
  unfold _make_pyomo_range_set_to_parametrization. cbv zeta.
  assert (Hins : forall P, <[name := P]> params
                           = <[name := P]> (∅ : ParamDict) ∪ params).
  { intros P. rewrite <- insert_union_l, (left_id_L ∅ (∪)). reflexivity. }
  destruct (ranges d) as [|r [|r' rs]]; try reflexivity.
  destruct (bool_decide (range_step r ∈ [-1; 0; 1])); [ | reflexivity ].
  destruct r as [start end_ step [c1 c2] | step]; [ | reflexivity ].
  destruct (step <? 0); cbn [bind]; rewrite Hins; reflexivity.
Qed.

Lemma translate_entry_outcome name params kv :
  translate_entry name params kv
  = (r <-- translate_entry name ∅ kv ;; Ok (r ∪ params)).
Proof.
  destruct kv as [k [is_fixed [d | isfinite isordered od dt | ] | ]];
    cbn [translate_entry]; try reflexivity.
  - destruct is_fixed; [reflexivity | apply range_set_outcome].
  - destruct is_fixed, isfinite, isordered; cbn [bind]; try reflexivity;
      rewrite <- insert_union_l, (left_id_L ∅ (∪)); reflexivity.
  - destruct is_fixed; reflexivity.
Qed.

Lemma entries_outcome name entries acc params :
  for_each (translate_entry name) entries (acc ∪ params)
  = (r <-- for_each (translate_entry name) entries acc ;; Ok (r ∪ params)).
Proof.
  revert acc. induction entries as [|kv entries IH]; intros acc;
    cbn [for_each bind]; [reflexivity | ].
  rewrite (translate_entry_outcome name (acc ∪ params)),
    (translate_entry_outcome name acc).
  destruct (translate_entry name ∅ kv) as [r|e]; cbn [bind]; [ | reflexivity ].
  rewrite (assoc_L (∪)). apply IH.
Qed.

Lemma range_set_translated d params name r :
  _make_pyomo_range_set_to_parametrization d params name = Ok r ->
  range_set_supported d = true.
Proof.
  unfold _make_pyomo_range_set_to_parametrization, range_set_supported.
  cbv zeta. intros H.
  destruct (ranges d) as [|x [|x' rs]]; try discriminate H.
  destruct x as [start end_ step closed | step]; cbn [range_step] in H.
  - destruct (bool_decide (step ∈ [-1; 0; 1])); [reflexivity | discriminate H].
  - destruct (bool_decide (step ∈ [-1; 0; 1])); discriminate H.
Qed.

Lemma translate_entry_translated name params k v r :
  translate_entry name params (k, v) = Ok r -> entry_supported v = true.
Proof.
  destruct v as [is_fixed [d | isfinite isordered od dt | ] | ];
    cbn [translate_entry entry_supported domain_supported].
  - destruct is_fixed; cbn [negb andb]; [discriminate | ].
    apply range_set_translated.
  - destruct is_fixed, isfinite; cbn [negb andb]; try discriminate;
      reflexivity.
  - destruct is_fixed; discriminate.
  - discriminate.
Qed.

Lemma entries_translated name entries params r :
  for_each (translate_entry name) entries params = Ok r ->
  forallb (fun kv => entry_supported kv.2) entries = true.
Proof.
  revert params. induction entries as [|[k v] entries IH]; intros params;
    cbn [for_each forallb snd]; [reflexivity | ].
  destruct (translate_entry name params (k, v)) as [ps|e] eqn:Hkv;
    cbn [bind]; [ | discriminate ].
  intros H. rewrite (translate_entry_translated _ _ _ _ _ Hkv).
  exact (IH _ H).
Qed.

Lemma variable_translated mc params r :
  _make_pyomo_variable_to_parametrization mc params = Ok r ->
  var_supported mc = true.
Proof.
  unfold _make_pyomo_variable_to_parametrization, var_supported.
  destruct (var_class mc); cbn [class_supported andb];
    try apply entries_translated.
  discriminate.
Qed.

(** X1.  A variable is translated only when its container is an indexed or a
    simple variable and each of its entries is a [_GeneralVarData] that is
    not fixed and whose domain is a single numeric range with step -1, 0 or
    1, or a finite set.  Whatever else a variable holds, its translation
    raises. *)
Theorem translated_variable_is_supported mc params r :
  _make_pyomo_variable_to_parametrization mc params = Ok r ->
  var_class mc <> OtherVarClass
  /\ var_supported mc = true
  /\ forall k v, (k, v) ∈ _data mc ->
       exists d, v = GeneralVarData false d /\ domain_supported d = true.
Proof.
  intros H. pose proof (variable_translated mc params r H) as Hs.
  split; [ | split; [exact Hs | ] ].
  - intros Hc. unfold var_supported in Hs. rewrite Hc in Hs. discriminate.
  - intros k v Hin. unfold var_supported in Hs.
    apply andb_prop in Hs as [_ Hs].
    rewrite forallb_forall in Hs.
    assert (Hv : entry_supported (k, v).2 = true).
    { apply Hs. apply list_elem_of_In. exact Hin. }
    cbn [snd] in Hv.
    destruct v as [is_fixed d | ]; [ | discriminate ].
    cbn [entry_supported] in Hv. apply andb_prop in Hv as [Hf Hd].
    destruct is_fixed; [discriminate | ]. exists d. auto.
Qed.

(** X2.  Translating a variable into a dictionary is translating it into the
    empty dictionary and laying the outcome over the dictionary: the
    variable's own parameters are the same whatever was there, a parameter
    that was there under one of its names is replaced, and an error is the
    same error. *)
Theorem variable_translation_lays_over mc params :
  _make_pyomo_variable_to_parametrization mc params
  = (r <-- _make_pyomo_variable_to_parametrization mc ∅ ;; Ok (r ∪ params)).
Proof.
  unfold _make_pyomo_variable_to_parametrization.
  pose proof (entries_outcome (var_name mc) (_data mc) ∅ params) as H.
  rewrite (left_id_L ∅ (∪)) in H.
  destruct (var_class mc); [exact H | exact H | reflexivity].
Qed.

End TranslatorOutcome.

(** ** Names across a model *)

Section ModelNames.

Implicit Types (params : ParamDict) (mc : Var) (name : string) (model : Model).

(** X4.  [_convert_to_ng_name] renders two keys alike only when they are the
    same key: a string key is never taken for a number or a tuple with the
    same characters, nor for [None]. *)
Theorem key_rendering_is_unambiguous (k k' : key) :
  _convert_to_ng_name k = _convert_to_ng_name k' <-> k = k'.
Proof.
  split; [apply convert_to_ng_name_inj | intros ->; reflexivity].
Qed.

Lemma bracket_split (a a' r r' : list ascii) :
  "["%char ∉ a -> "["%char ∉ a' ->
  a ++ "["%char :: r = a' ++ "["%char :: r' -> a = a' /\ r = r'.
Proof.
  revert a'. induction a as [|x a IH]; intros a' Ha Ha' Heq.
  - destruct a' as [|x' a']; cbn in Heq.
    + injection Heq as ->. auto.
    + injection Heq as <- _. destruct Ha'. left.
  - destruct a' as [|x' a']; cbn in Heq.
    + injection Heq as -> _. destruct Ha. left.
    + injection Heq as -> Heq.
      apply not_elem_of_cons in Ha as [_ Ha], Ha' as [_ Ha'].
      destruct (IH a' Ha Ha' Heq) as [-> ->]. auto.
Qed.

Lemma params_name_of_pair_inj name name' (k k' : key) :
  bracket_free name -> bracket_free name' ->
  params_name_of name k = params_name_of name' k' ->
  name = name' /\ k = k'.
Proof.
  unfold bracket_free. intros Hn Hn' H.
  assert (Hc := f_equal chars H). rewrite !chars_params_name in Hc.
  assert (Hsame : name = name').
  { destruct k, k';
      cbn [chars String.list_ascii_of_string app] in Hc;
      rewrite ?app_nil_r in Hc;
      try (apply chars_inj; exact Hc);
      try (apply bracket_split in Hc as [Hc _]; [apply chars_inj; exact Hc
                                                | assumption | assumption]);
      exfalso.
    all: try (rewrite Hc in Hn; apply Hn, elem_of_app; right; left).
    all: try (rewrite <- Hc in Hn'; apply Hn', elem_of_app; right; left). }
  subst name'. split; [reflexivity | exact (params_name_of_inj _ _ _ H)].
Qed.

(** X5.  With variable names that hold no opening bracket, a parameter name
    tells both the variable and the key it was made from: two entries get
    the same name only when they are the same entry of the same variable. *)
Theorem parameter_name_tells_variable_and_key name name' (k k' : key) :
  bracket_free name -> bracket_free name' ->
  (params_name_of name k = params_name_of name' k' <-> name = name' /\ k = k').
Proof.
  intros Hn Hn'. split.
  - apply params_name_of_pair_inj; assumption.
  - intros [-> ->]. reflexivity.
Qed.

Lemma variables_dom (vars : list Var) acc params :
  for_each (fun ps v => _make_pyomo_variable_to_parametrization v ps) vars acc
  = Ok params ->
  dom params = dom acc ∪ list_to_set (mc ← vars; entry_names mc)
  /\ forall n, n ∉ (mc ← vars; entry_names mc) -> params !! n = acc !! n.
Proof.
  revert acc. induction vars as [|mc vars IH]; intros acc; cbn [for_each].
  - intros [= <-]. cbn. rewrite (right_id_L ∅ (∪)). auto.
  - destruct (_make_pyomo_variable_to_parametrization mc acc) as [ps|e] eqn:Hmc;
      cbn [bind]; [ | discriminate ].
    intros H. destruct (IH _ H) as [Hdom Hrest].
    apply variable_loop in Hmc. destruct (entries_ok _ _ _ _ Hmc) as [Hd Hr].
    cbn [mbind list_bind]. split.
    + rewrite Hdom, Hd, list_to_set_app_L, (assoc_L (∪)). reflexivity.
    + intros n Hn. apply not_elem_of_app in Hn as [Hn1 Hn2].
      rewrite (Hrest n Hn2). apply Hr. exact Hn1.
Qed.

(** X6.  The names bound in the parametrization of an adapter are the names
    of the entries of the model's active variables: every entry has its
    parameter, and there is no parameter besides. *)
Theorem parametrization_names_are_entry_names model self :
  __init__ model = Ok self ->
  dom (parametrization self) = list_to_set (model_names model).
Proof.
  intros H. apply init_ok_inv in H as (_ & Hv & _).
  unfold instru_params_of in Hv. apply variables_dom in Hv as [Hdom _].
  rewrite Hdom, dom_empty_L, (left_id_L ∅ (∪)). reflexivity.
Qed.

Lemma entry_names_NoDup mc :
  NoDup (_data mc).*1 -> NoDup (entry_names mc).
Proof.
  intros H. unfold entry_names. apply NoDup_fmap_2; [ | exact H ].
  intros k k'. apply params_name_of_inj.
Qed.

(** With distinct bracket-free variable names and distinct keys within each
    variable, no two entries of a model share a parameter name. *)
Lemma names_NoDup (vars : list Var) :
  NoDup (var_name <$> vars) ->
  Forall (fun mc => bracket_free (var_name mc)) vars ->
  Forall (fun mc => NoDup (_data mc).*1) vars ->
  NoDup (mc ← vars; entry_names mc).
Proof.
  induction vars as [|mc vars IH]; intros Hnames Hfree Hkeys;
    cbn [mbind list_bind]; [constructor | ].
  cbn [fmap list_fmap] in Hnames. apply NoDup_cons in Hnames as [Hmc Hnames].
  apply Forall_cons in Hfree as [Hf Hfree].
  apply Forall_cons in Hkeys as [Hk Hkeys].
  apply NoDup_app. split; [apply entry_names_NoDup; exact Hk | ].
  split; [ | apply IH; assumption ].
  intros n Hn Hn'. unfold entry_names in Hn.
  apply list_elem_of_fmap in Hn as (k & -> & _).
  apply list_elem_of_bind in Hn' as (mc' & Hn' & Hin).
  unfold entry_names in Hn'. apply list_elem_of_fmap in Hn' as (k' & Heq & _).
  apply params_name_of_pair_inj in Heq as [Heq _];
    [ | exact Hf | exact (proj1 (Forall_forall _ _) Hfree mc' Hin) ].
  apply Hmc. rewrite Heq. apply list_elem_of_fmap. exists mc'. auto.
Qed.

(** X7.  When the variables of a model have distinct names without brackets
    and each has distinct keys, the adapter has as many parameters as the
    active variables have entries: no entry is lost to another one. *)
Theorem one_parameter_per_entry_of_the_model model self :
  __init__ model = Ok self ->
  NoDup (var_name <$> component_objects as_Var model) ->
  Forall (fun mc => bracket_free (var_name mc)) (component_objects as_Var model) ->
  Forall (fun mc => NoDup (_data mc).*1) (component_objects as_Var model) ->
  size (parametrization self)
  = length (mc ← component_objects as_Var model; _data mc).
Proof.
  intros H Hnames Hfree Hkeys.
  apply init_ok_inv in H as (_ & Hv & _).
  unfold instru_params_of in Hv. apply variables_dom in Hv as [Hdom _].
  rewrite dom_empty_L, (left_id_L ∅ (∪)) in Hdom.
  rewrite <- size_dom, Hdom.
  rewrite size_list_to_set by (apply names_NoDup; assumption).
  clear. induction (component_objects as_Var model) as [|mc vars IH];
    cbn [mbind list_bind]; [reflexivity | ].
  rewrite !length_app, IH. unfold entry_names. rewrite !length_fmap.
  reflexivity.
Qed.

Lemma entries_lookup name entries acc params :
  for_each (translate_entry name) entries acc = Ok params ->
  NoDup (params_name_of name <$> entries.*1) ->
  forall k v, (k, v) ∈ entries ->
    exists P, translate_entry name ∅ (k, v) = Ok {[params_name_of name k := P]}
              /\ params !! params_name_of name k = Some P.
Proof.
  revert acc. induction entries as [|[k0 v0] entries IH]; intros acc Hloop Hnd k v Hin.
  - inversion Hin.
  - cbn [for_each] in Hloop.
    destruct (translate_entry name acc (k0, v0)) as [acc1|e] eqn:H0;
      cbn [bind] in Hloop; [ | discriminate ].
    cbn [fmap list_fmap fst] in Hnd. apply NoDup_cons in Hnd as [Hfresh Hnd].
    apply elem_of_cons in Hin as [[= -> ->] | Hin].
    + rewrite translate_entry_outcome in H0.
      destruct (translate_entry name ∅ (k0, v0)) as [r|e] eqn:Hr;
        cbn [bind] in H0; [ | discriminate ].
      injection H0 as <-.
      destruct (translate_entry_ok _ _ _ _ _ Hr) as (P & ->).
      exists P. split; [reflexivity | ].
      destruct (entries_ok _ _ _ _ Hloop) as [_ Hrest].
      rewrite (Hrest _ Hfresh).
      apply lookup_union_Some_l, lookup_insert_eq.
    + exact (IH _ Hloop Hnd k v Hin).
Qed.

Lemma variables_lookup (vars : list Var) acc params mc k v :
  for_each (fun ps v => _make_pyomo_variable_to_parametrization v ps) vars acc
  = Ok params ->
  NoDup (mc ← vars; entry_names mc) ->
  mc ∈ vars -> (k, v) ∈ _data mc ->
  exists P,
    translate_entry (var_name mc) ∅ (k, v)
    = Ok {[params_name_of (var_name mc) k := P]}
    /\ params !! params_name_of (var_name mc) k = Some P.
Proof.
  intros Hv Hnd Hmc Hkv. revert acc Hv Hnd Hmc.
  induction vars as [|mc0 vars IH]; intros acc Hv Hnd Hmc; [inversion Hmc | ].
  cbn [for_each] in Hv.
  destruct (_make_pyomo_variable_to_parametrization mc0 acc) as [ps|e] eqn:H0;
    cbn [bind] in Hv; [ | discriminate ].
  cbn [mbind list_bind] in Hnd. apply NoDup_app in Hnd as (Hnd0 & Hsep & Hnd).
  apply elem_of_cons in Hmc as [-> | Hmc].
  - apply variable_loop in H0.
    destruct (entries_lookup _ _ _ _ H0 Hnd0 k v Hkv) as (P & HP & Hps).
    exists P. split; [exact HP | ].
    destruct (variables_dom _ _ _ Hv) as [_ Hrest].
    rewrite Hrest; [exact Hps | ].
    apply Hsep. unfold entry_names. apply list_elem_of_fmap.
    exists k. split; [reflexivity | ].
    apply list_elem_of_fmap. exists (k, v). auto.
  - exact (IH ps Hv Hnd Hmc).
Qed.

(** X8.  Under the same conditions, the parameter an adapter holds for an
    entry is the parameter the entry yields when it is translated on its
    own: it depends on the entry's domain and on nothing else in the
    model. *)
Theorem parameter_of_an_entry_is_its_own model self mc k v :
  __init__ model = Ok self ->
  NoDup (var_name <$> component_objects as_Var model) ->
  Forall (fun mc => bracket_free (var_name mc)) (component_objects as_Var model) ->
  Forall (fun mc => NoDup (_data mc).*1) (component_objects as_Var model) ->
  mc ∈ component_objects as_Var model ->
  (k, v) ∈ _data mc ->
  exists P,
    translate_entry (var_name mc) ∅ (k, v)
    = Ok {[params_name_of (var_name mc) k := P]}
    /\ parametrization self !! params_name_of (var_name mc) k = Some P.
Proof.
  intros H Hnames Hfree Hkeys Hmc Hkv.
  apply init_ok_inv in H as (_ & Hv & _).
  unfold instru_params_of in Hv.
  exact (variables_lookup _ _ _ _ _ _ Hv (names_NoDup _ Hnames Hfree Hkeys)
           Hmc Hkv).
Qed.

End ModelNames.

(** ** More on construction *)

Section ConstructionOutcome.

Implicit Types (model : Model) (self : Pyomo) (mc : Var).

Lemma variables_translated (vars : list Var) (acc r : ParamDict) mc :
  for_each (fun ps v => _make_pyomo_variable_to_parametrization v ps) vars acc
  = Ok r ->
  mc ∈ vars -> var_supported mc = true.
Proof.
  intros H Hin. destruct (for_each_ok _ _ _ _ _ H Hin) as (s0 & s1 & Hok).
  exact (variable_translated mc s0 s1 Hok).
Qed.

(** X9.  The errors of construction come in a fixed order.  Construction
    raises the model-kind error exactly for a model that is not
    instantiated; an objective error is raised only for an instantiated
    model whose variables were all translated, so a missing objective never
    hides a variable that cannot be translated; and for an instantiated
    model an error of the variable loop is the error of construction. *)
Theorem construction_errors_come_in_order model e :
  __init__ model = Raise e ->
  (e = NotImplementedError AbstractModelNotSupported
   <-> is_concrete model = false)
  /\ (raised_kind (__init__ model) = Some MissingObjective
      \/ raised_kind (__init__ model) = Some MultipleObjectives ->
      is_concrete model = true /\ exists ps, instru_params_of model = Ok ps)
  /\ (is_concrete model = true ->
      forall e', instru_params_of model = Raise e' -> e = e').
Proof.
  intros H.
  destruct (is_concrete model) eqn:Hc.
  - destruct (instru_params_of model) as [ps|e0] eqn:Hv.
    + rewrite (init_after_variables model ps Hc Hv) in H |- *.
      destruct (component_objects as_Objective model) as [|o [|o' objs]];
        try discriminate; injection H as <-;
        (split; [split; discriminate | ]);
        (split; [intros _; eauto | intros _ e' [=] ]).
    + rewrite (init_variables_fail model e0 Hc Hv) in H |- *.
      injection H as ->.
      destruct (instru_params_error model e Hv) as [-> | (site & -> & Hk)].
      * split; [split; discriminate | ].
        split; [intros [? | ?]; discriminate | ].
        intros _ e' [= ->]. reflexivity.
      * split; [split; [intros [= ->]; discriminate Hk | discriminate] | ].
        split; [cbn [raised_kind]; rewrite Hk; intros [? | ?]; discriminate | ].
        intros _ e' [= ->]. reflexivity.
  - rewrite (init_abstract model Hc) in H |- *. injection H as <-.
    split; [split; reflexivity | ].
    split; [cbn [raised_kind classify]; intros [? | ?]; discriminate
           | discriminate].
Qed.

(** X10.  An adapter is built only for a model whose active variables can
    all be translated: each has an indexed or a simple container, and
    entries that are not fixed, over a single numeric range with step -1, 0
    or 1 or over a finite set. *)
Theorem built_adapter_has_supported_variables model self mc :
  __init__ model = Ok self ->
  mc ∈ component_objects as_Var model ->
  var_supported mc = true.
Proof.
  intros H Hin. apply init_ok_inv in H as (_ & Hv & _).
  unfold instru_params_of in Hv.
  exact (variables_translated _ _ _ _ Hv Hin).
Qed.

Lemma component_objects_without_inactive {A} (ctype : Declaration -> option A)
    model :
  component_objects ctype (without_inactive model)
  = component_objects ctype model.
Proof.
  unfold component_objects, without_inactive. cbn [components].
  induction (components model) as [|c cs IH]; [reflexivity | ].
  rewrite filter_cons. destruct (decide (active c = true)) as [Ha | Ha].
  - cbn [omap list_omap]. rewrite IH. reflexivity.
  - cbn [omap list_omap]. apply not_true_is_false in Ha. rewrite Ha.
    exact IH.
Qed.

(** X11.  Inactive components play no part in construction: the model
    without them gives the same error, or the same adapter around the other
    model. *)
Theorem inactive_components_are_ignored model :
  match __init__ model, __init__ (without_inactive model) with
  | Ok a, Ok b => b = with_model a (without_inactive model)
  | Raise e, Raise e' => e = e'
  | _, _ => False
  end.
Proof.
  unfold __init__.
  rewrite !component_objects_without_inactive.
  change (is_concrete (without_inactive model)) with (is_concrete model).
  destruct (is_concrete model); [ | reflexivity ].
  destruct (for_each _ (component_objects as_Var model) ∅) as [ps|e];
    cbn [bind]; [ | reflexivity ].
  repeat case_bool_decide; reflexivity.
Qed.

End ConstructionOutcome.

(** ** More on evaluation *)

Section EvaluationOutcome.

Implicit Types (model : Model) (self : Pyomo) (st : store)
  (k_model_variables : kwargs).

(** X16.  For a minimization objective the wrapper returns the value of the
    expression itself: the product with the sense 1 changes no binary64
    number. *)
Theorem minimization_value_is_returned_unchanged self k_model_variables o V :
  all_objectives self = [o] ->
  sense o = minimize ->
  obj_expr o (values (inject k_model_variables (_model_instance self))) = Some V ->
  Float64.valid V = true ->
  (_pyomo_obj_function_wrapper self 0 k_model_variables).1 = Ok V.
Proof.
  intros Hobjs Hs HV Hvalid.
  rewrite obj_wrapper_unfold. cbn [fst]. rewrite Hobjs. cbn [lookup list_lookup].
  rewrite HV, Hs. cbn [value bind]. rewrite (mul_minimize V Hvalid).
  reflexivity.
Qed.

(** X17.  When the evaluation of a member of an indexed constraint raises
    and the members before it are satisfied, the wrapper raises that
    exception; the members behind are not evaluated, so a violated member
    behind it does not turn the exception into a plain false. *)
Theorem raising_member_ends_the_loop self i name items instru pre k c post :
  all_constraints self !! i = Some (IndexedConstraint name items) ->
  let st := values (inject instru.2 (_model_instance self)) in
  items = pre ++ (k, c) :: post ->
  Forall (satisfied st) pre ->
  c st = None ->
  (_pyomo_constraint_wrapper self i instru).1 = Raise PyomoError
  /\ (indexed_loop items st true []).2 = pre.*1 ++ [k].
Proof.
  intros Hi st -> Hpre Hc.
  rewrite constraint_wrapper_unfold. cbn zeta. cbn [fst]. rewrite Hi. fold st.
  rewrite (indexed_loop_satisfied _ _ _ _ Hpre).
  cbn [indexed_loop]. rewrite Hc. cbn [value app]. split; reflexivity.
Qed.

End EvaluationOutcome.

(** ** Open ranges between the targets *)

Section OpenRanges.

(** X18.  For a continuous range open at both ends whose lower endpoint is
    below 1 and whose upper endpoint is above -1, the bounds of the derived
    parameter are the neighbours of the endpoints inside the range: the next
    binary64 number above the lower endpoint and the next one below the
    upper endpoint. *)
Theorem open_range_between_targets_moves_inward
    fs a b (params : ParamDict) params_name :
  SFcompare a toward_lower = Some Lt ->
  SFcompare b toward_upper = Some Gt ->
  _make_pyomo_range_set_to_parametrization
    {| is_finite_simple := fs;
       ranges := [NumericRange (Some a) (Some b) 0 (false, false)] |}
    params params_name
  = Ok (<[params_name := Scalar {| lower := Some (Float64.next_up a);
                                   upper := Some (Float64.next_down b);
                                   integer := false |}]> params).
Proof.
  intros Ha Hb. rewrite single_numeric_range by (right; left).
  unfold scalar_of_range. change (0 <? 0) with false.
  cbn [fst snd fmap option_fmap option_map]. unfold Float64.nextafter.
  rewrite Ha, Hb. reflexivity.
Qed.

End OpenRanges.

(** ** The further properties on the samples *)

Section FurtherSamples.

Lemma init_rosenbrock : __init__ rosenbrock = Ok pyomo_rosenbrock.
Proof.
  assert (Hv : instru_params_of rosenbrock
               = Ok (<["y" := real_param]> (<["x" := real_param]> ∅)))
    by reflexivity.
  rewrite (init_after_variables rosenbrock _ eq_refl Hv). reflexivity.
Qed.

Lemma init_no_objective :
  __init__ no_objective = Raise (NotImplementedError CannotFindObjective).
Proof.
  rewrite (init_after_variables no_objective knapsack_params eq_refl
             no_objective_variables).
  reflexivity.
Qed.

Lemma bracket_free_x : bracket_free "x".
Proof. apply (bool_decide_unpack _). vm_compute. exact I. Qed.

Lemma bracket_free_y : bracket_free "y".
Proof. apply (bool_decide_unpack _). vm_compute. exact I. Qed.

Lemma knapsack_keys_NoDup : NoDup (_data knapsack_x).*1.
Proof. apply (bool_decide_unpack _). vm_compute. exact I. Qed.

(** On [knapsack.x]. *)
Lemma translated_variable_is_supported_witness :
  var_class knapsack_x <> OtherVarClass
  /\ var_supported knapsack_x = true
  /\ forall k v, (k, v) ∈ _data knapsack_x ->
       exists d, v = GeneralVarData false d /\ domain_supported d = true.
Proof.
  apply (translated_variable_is_supported knapsack_x ∅ knapsack_params).
  vm_compute. reflexivity.
Defined.

(** On the variables [x] and [y] with the same key. *)
Lemma parameter_name_tells_variable_and_key_witness :
  params_name_of "x" (KInt 1) = params_name_of "y" (KInt 1)
  <-> "x" = "y" /\ KInt 1 = KInt 1.
Proof.
  apply (parameter_name_tells_variable_and_key "x" "y" (KInt 1) (KInt 1)).
  - exact bracket_free_x.
  - exact bracket_free_y.
Defined.

(** On [knapsack]. *)
Lemma parametrization_names_are_entry_names_witness :
  dom (parametrization pyomo_knapsack) = list_to_set (model_names knapsack).
Proof.
  apply (parametrization_names_are_entry_names knapsack pyomo_knapsack).
  exact init_knapsack.
Defined.

Lemma one_parameter_per_entry_of_the_model_witness :
  size (parametrization pyomo_knapsack)
  = length (mc ← component_objects as_Var knapsack; _data mc).
Proof.
  apply (one_parameter_per_entry_of_the_model knapsack pyomo_knapsack).
  - exact init_knapsack.
  - apply (bool_decide_unpack _). vm_compute. exact I.
  - constructor; [exact bracket_free_x | constructor].
  - constructor; [exact knapsack_keys_NoDup | constructor].
Defined.

Lemma parameter_of_an_entry_is_its_own_witness :
  exists P,
    translate_entry "x" ∅ (KStr "towel", GeneralVarData false (DRangeSet Binary))
    = Ok {[params_name_of "x" (KStr "towel") := P]}
    /\ parametrization pyomo_knapsack !! params_name_of "x" (KStr "towel")
       = Some P.
Proof.
  apply (parameter_of_an_entry_is_its_own knapsack pyomo_knapsack knapsack_x
           (KStr "towel") (GeneralVarData false (DRangeSet Binary))).
  - exact init_knapsack.
  - apply (bool_decide_unpack _). vm_compute. exact I.
  - constructor; [exact bracket_free_x | constructor].
  - constructor; [exact knapsack_keys_NoDup | constructor].
  - left.
  - do 3 right. left.
Defined.

(** On [knapsack] without its objective. *)
Lemma construction_errors_come_in_order_witness :
  (NotImplementedError CannotFindObjective
   = NotImplementedError AbstractModelNotSupported
   <-> is_concrete no_objective = false)
  /\ (raised_kind (__init__ no_objective) = Some MissingObjective
      \/ raised_kind (__init__ no_objective) = Some MultipleObjectives ->
      is_concrete no_objective = true
      /\ exists ps, instru_params_of no_objective = Ok ps)
  /\ (is_concrete no_objective = true ->
      forall e', instru_params_of no_objective = Raise e' ->
                 NotImplementedError CannotFindObjective = e').
Proof.
  apply (construction_errors_come_in_order no_objective).
  exact init_no_objective.
Defined.

(** On [knapsack] and its variable [x]. *)
Lemma built_adapter_has_supported_variables_witness :
  var_supported knapsack_x = true.
Proof.
  apply (built_adapter_has_supported_variables knapsack pyomo_knapsack knapsack_x).
  - exact init_knapsack.
  - left.
Defined.

(** On [rosenbrock] at its optimum, where the objective is 0. *)
Lemma minimization_value_is_returned_unchanged_witness :
  (_pyomo_obj_function_wrapper pyomo_rosenbrock 0 at_optimum).1 = Ok f0.
Proof.
  apply (minimization_value_is_returned_unchanged
           pyomo_rosenbrock at_optimum rosenbrock_obj f0).
  - reflexivity.
  - reflexivity.
  - vm_compute. reflexivity.
  - reflexivity.
Defined.

(** On the reordered [limits]: the member that raises is met before the
    violated one. *)
Lemma raising_member_ends_the_loop_witness :
  (_pyomo_constraint_wrapper pyomo_reordered 1 ([], load)).1 = Raise PyomoError
  /\ (indexed_loop reordered_items
        (values (inject load knapsack_limits)) true []).2
     = [KInt 1; KInt 3].
Proof.
  apply (raising_member_ends_the_loop pyomo_reordered 1 "limits"
           reordered_items ([], load)
           [(KInt 1, at_most_once)] (KInt 3) broken [(KInt 2, at_least_once)]).
  - reflexivity.
  - reflexivity.
  - constructor; [vm_compute; reflexivity | constructor].
  - vm_compute. reflexivity.
Defined.

(** On the open range from 0 to 1. *)
Lemma open_range_between_targets_moves_inward_witness :
  _make_pyomo_range_set_to_parametrization
    {| is_finite_simple := false;
       ranges := [NumericRange (Some f0) (Some f1) 0 (false, false)] |} ∅ "p"
  = Ok (<["p" := Scalar {| lower := Some (Float64.next_up f0);
                           upper := Some (Float64.next_down f1);
                           integer := false |}]> ∅).
Proof.
  apply (open_range_between_targets_moves_inward false f0 f1 ∅ "p");
    reflexivity.
Defined.

End FurtherSamples.
